(** * git-switch: the persona registry of [git_switch.py]

    A shallow embedding of the [Manager] class (the persona registry, its
    JSON persistence and the [git config] calls of [switch_persona]) and the
    properties of the registry stated over it.

    Modelling choices.
    - A Python [str] is a [string], the bytes that [os.fsencode] gives for
      it under UTF-8; [sorted] compares by code point, which on UTF-8 encoded
      text is the byte-wise lexicographic order [String.leb]. Every such
      string can be handed to [os.system], unless it holds a NUL character.
    - A Python [dict] is an association list in insertion order whose keys
      are pairwise distinct ([dict_wf]); the operations below are the ones the
      source uses ([in], [d[k]], [d[k] = v], [del d[k]], [.values()]).
    - A method of [Manager] is a computation in a state and exception monad
      over [World]: [self.config] and the commands handed to [os.system].
    - The [json] module is not part of the repository: a file is either
      absent, not JSON, or JSON text given by its syntax tree; [json.dump]
      followed by [json.load] is taken to give back the same tree.
    - [main] is a function of the parsed command line, the lines of the
      standard input and the file; it gives the exception that left it, if
      any, what was printed, the commands run and the file left. What [git]
      itself prints is not part of it. *)

From Stdlib Require Import List String Ascii Bool NArith Permutation Sorted Lia.
Import ListNotations.
Open Scope string_scope.

(** ** Python dictionaries with [str] keys *)

Module PyDict.
Section Dict.
Context {V : Type}.

Definition dict := list (string * V).

(** [d.get(k)]: the value stored under [k], if any. *)
Fixpoint dict_get (k : string) (d : dict) : option V :=
  match d with
  | [] => None
  | (k', v) :: d' => if String.eqb k k' then Some v else dict_get k d'
  end.

(** [k in d] *)
Definition dict_contains (k : string) (d : dict) : bool :=
  match dict_get k d with Some _ => true | None => false end.

(** [d[k] = v]: an existing key keeps its place, a new key goes last. *)
Fixpoint dict_set (k : string) (v : V) (d : dict) : dict :=
  match d with
  | [] => [(k, v)]
  | (k', v') :: d' =>
      if String.eqb k k' then (k', v) :: d' else (k', v') :: dict_set k v d'
  end.

(** [del d[k]]: [None] stands for the [KeyError] of an absent key. *)
Fixpoint dict_del (k : string) (d : dict) : option dict :=
  match d with
  | [] => None
  | (k', v') :: d' =>
      if String.eqb k k' then Some d'
      else match dict_del k d' with
           | Some d'' => Some ((k', v') :: d'')
           | None => None
           end
  end.

Definition dict_keys (d : dict) : list string := map fst d.

(** [d.values()], in insertion order. *)
Definition dict_values (d : dict) : list V := map snd d.

(** The keys of a dictionary are pairwise distinct. *)
Definition dict_wf (d : dict) : Prop := NoDup (dict_keys d).

End Dict.
Arguments dict V : clear implicits.
End PyDict.
Import PyDict.

(** ** Data model *)

Record Persona := mkPersona {
  persona_name : string;
  commit_name : string;
  email : string;
  ssh_key_path : string
}.

Record Config := mkConfig {
  current_persona : option string;
  personas : dict Persona
}.

(** [persona.persona_name = new_name] *)
Definition with_persona_name (new_name : string) (p : Persona) : Persona :=
  mkPersona new_name (commit_name p) (email p) (ssh_key_path p).

(** ** Exceptions, state and the method monad *)

Inductive exn :=
| KeyError (key : string)
| ValueError (msg : string)
| TypeError
| AttributeError
| FileNotFoundError
| JSONDecodeError.

Inductive result (A : Type) :=
| Return (a : A)
| Raise (e : exn).
Arguments Return {A} a.
Arguments Raise {A} e.

Record World := mkWorld {
  config : Config;          (* self.config *)
  os_system : list string   (* commands run by os.system, oldest first *)
}.

Definition M (A : Type) : Type := World -> result A * World.

Definition ret {A} (a : A) : M A := fun w => (Return a, w).

Definition raise {A} (e : exn) : M A := fun w => (Raise e, w).

Definition bind {A B} (m : M A) (k : A -> M B) : M B :=
  fun w =>
    match m w with
    | (Return a, w') => k a w'
    | (Raise e, w') => (Raise e, w')
    end.

Notation "x <- m ;; k" := (bind m (fun x => k))
  (at level 61, m at next level, right associativity).
Notation "m ;; k" := (bind m (fun _ => k))
  (at level 61, right associativity).

(** [self.config.personas] *)
Definition get_personas : M (dict Persona) :=
  fun w => (Return (personas (config w)), w).

Definition put_personas (d : dict Persona) : M unit :=
  fun w =>
    (Return tt,
     mkWorld (mkConfig (current_persona (config w)) d) (os_system w)).

(** [self.config.current_persona] *)
Definition get_current : M (option string) :=
  fun w => (Return (current_persona (config w)), w).

(** [self.config.current_persona = name] *)
Definition put_current (name : option string) : M unit :=
  fun w =>
    (Return tt, mkWorld (mkConfig name (personas (config w))) (os_system w)).

(** The string holds a NUL character. *)
Fixpoint has_nul (s : string) : bool :=
  match s with
  | EmptyString => false
  | String c s' => Ascii.eqb c "000"%char || has_nul s'
  end.

(** [os.system(cmd)]: a command that holds a NUL character is refused with
    [ValueError] before anything is run; any other command is handed to the
    shell, and its exit status is ignored by the source. *)
Definition os_system_call (cmd : string) : M unit :=
  fun w =>
    if has_nul cmd then (Raise (ValueError "embedded null byte"), w)
    else (Return tt, mkWorld (config w) (os_system w ++ [cmd])).

(** [self.config.personas[k]] *)
Definition personas_getitem (k : string) : M Persona :=
  d <- get_personas ;;
  match dict_get k d with
  | Some p => ret p
  | None => raise (KeyError k)
  end.

(** [self.config.personas[k] = p] *)
Definition personas_setitem (k : string) (p : Persona) : M unit :=
  d <- get_personas ;; put_personas (dict_set k p d).

(** [del self.config.personas[k]] *)
Definition personas_delitem (k : string) : M unit :=
  d <- get_personas ;;
  match dict_del k d with
  | Some d' => put_personas d'
  | None => raise (KeyError k)
  end.

(** ** The methods of [Manager] *)

Definition dquote : string := String "034"%char EmptyString.

(** Truth value of [self.config.current_persona]: [None] and the empty
    string are false, every other string is true. *)
Definition truthy (o : option string) : bool :=
  match o with
  | None => false
  | Some s => negb (String.eqb s EmptyString)
  end.

Definition has_persona (persona_name : string) : M bool :=
  d <- get_personas ;; ret (dict_contains persona_name d).

Definition get_persona (persona_name : string) : M Persona :=
  personas_getitem persona_name.

Definition set_persona (persona : Persona) : M unit :=
  personas_setitem (persona_name persona) persona.

Definition switch_persona (persona_name : string) (_global : bool) : M unit :=
  d <- get_personas ;;
  if negb (dict_contains persona_name d)
  then raise (ValueError ("Persona " ++ persona_name ++ " not found"))
  else
    put_current (Some persona_name) ;;
    persona <- personas_getitem persona_name ;;
    let _global := if _global then "--global" else EmptyString in
    os_system_call ("git config " ++ _global ++ " user.name " ++ dquote
                      ++ commit_name persona ++ dquote) ;;
    os_system_call ("git config " ++ _global ++ " user.email " ++ dquote
                      ++ email persona ++ dquote) ;;
    os_system_call ("git config " ++ _global ++ " core.sshCommand " ++ dquote
                      ++ "ssh -i " ++ ssh_key_path persona ++ dquote).

Definition get_current_persona : M (option Persona) :=
  cur <- get_current ;;
  if negb (truthy cur) then ret None
  else
    match cur with
    | Some name => p <- personas_getitem name ;; ret (Some p)
    | None => ret None   (* not reached: [None] is not truthy *)
    end.

Definition rename_persona (old_name new_name : string) : M unit :=
  persona <- personas_getitem old_name ;;
  personas_delitem old_name ;;
  let persona := with_persona_name new_name persona in
  personas_setitem new_name persona.

Definition remove_persona (persona_name : string) : M unit :=
  personas_delitem persona_name.

(** [sorted(l, key=key)]: a stable sort, ascending by [key]. *)
Fixpoint sorted_insert {A} (key : A -> string) (x : A) (l : list A) : list A :=
  match l with
  | [] => [x]
  | y :: l' =>
      if String.leb (key x) (key y) then x :: y :: l'
      else y :: sorted_insert key x l'
  end.

Fixpoint sorted {A} (key : A -> string) (l : list A) : list A :=
  match l with
  | [] => []
  | x :: l' => sorted_insert key x (sorted key l')
  end.

Definition list_personas : M (list Persona) :=
  d <- get_personas ;; ret (sorted persona_name (dict_values d)).

(** ** Persistence: [__exit__] and [__enter__] *)

Set Warnings "-register-all".

(** Syntax tree of a JSON text. An object keeps its members in the order of
    the text, repeated names included; a number keeps its literal. *)
Inductive json :=
| JNull
| JBool (b : bool)
| JNumber (literal : string)
| JString (s : string)
| JArray (items : list json)
| JObject (members : list (string * json)).

(** What [self.config_file_path] holds. *)
Inductive file :=
| NoFile                 (* the path does not exist *)
| NotJson                (* the content is not a JSON text *)
| JsonText (j : json).

Definition asdict_current (c : option string) : json :=
  match c with
  | None => JNull
  | Some s => JString s
  end.

(** [dataclasses.asdict] on a [Persona]: one entry per field, in field
    order. *)
Definition asdict_Persona (p : Persona) : json :=
  JObject [ ("persona_name", JString (persona_name p));
            ("commit_name", JString (commit_name p));
            ("email", JString (email p));
            ("ssh_key_path", JString (ssh_key_path p)) ].

(** [dataclasses.asdict(self.config)] *)
Definition asdict (c : Config) : json :=
  JObject [ ("current_persona", asdict_current (current_persona c));
            ("personas",
             JObject (map (fun kv => (fst kv, asdict_Persona (snd kv)))
                          (personas c))) ].

(** [__exit__]: the file after [json.dump(dataclasses.asdict(self.config))]. *)
Definition __exit__ (self : Config) : file := JsonText (asdict self).

(** The [dict] that [json.load] builds from the members of an object: a
    repeated name keeps its first place and its last value. *)
Definition dict_of_members (ms : list (string * json)) : dict json :=
  fold_left (fun d kv => dict_set (fst kv) (snd kv) d) ms [].

(** [json.load(f)] on the opened file. *)
Definition json_load (f : file) : result json :=
  match f with
  | NoFile => Raise FileNotFoundError
  | NotJson => Raise JSONDecodeError
  | JsonText j => Return j
  end.

(** [v[k]] for a loaded value [v] and a [str] [k]: only a [dict] can be
    indexed by a string. *)
Definition py_getitem (v : json) (k : string) : result json :=
  match v with
  | JObject ms =>
      match dict_get k (dict_of_members ms) with
      | Some x => Return x
      | None => Raise (KeyError k)
      end
  | _ => Raise TypeError
  end.

(** [v.values()]: only a [dict] has the method. *)
Definition py_values (v : json) : result (list json) :=
  match v with
  | JObject ms => Return (dict_values (dict_of_members ms))
  | _ => Raise AttributeError
  end.

Definition Persona_fields : list string :=
  ["persona_name"; "commit_name"; "email"; "ssh_key_path"].

(** The constructor [Persona] applied to the entries of [v] as keyword
    arguments: [v] must be a [dict] whose keys are exactly the four field
    names; the values are taken as they are. *)
Definition Persona_kwargs (v : json) : result (json * json * json * json) :=
  match v with
  | JObject ms =>
      let d := dict_of_members ms in
      if forallb (fun k => existsb (String.eqb k) Persona_fields) (dict_keys d)
      then
        match dict_get "persona_name" d, dict_get "commit_name" d,
              dict_get "email" d, dict_get "ssh_key_path" d with
        | Some n, Some c, Some e, Some s => Return (n, c, e, s)
        | _, _, _, _ => Raise TypeError
        end
      else Raise TypeError
  | _ => Raise TypeError
  end.

(** A list or a dict cannot be a dictionary key. *)
Definition hashable (v : json) : bool :=
  match v with
  | JArray _ | JObject _ => false
  | _ => true
  end.

Definition as_str (v : json) : option string :=
  match v with
  | JString s => Some s
  | _ => None
  end.

(** The dataclasses declare every field [str]; nothing checks it when a file
    is read. [Typed c] is a configuration within the declared types (with
    [None] for no current persona); [Untyped] says that the run stored some
    other JSON value in a field, which this model does not represent. *)
Inductive loaded :=
| Typed (c : Config)
| Untyped.

Definition loaded_current (v : json) : option (option string) :=
  match v with
  | JNull => Some None
  | JString s => Some (Some s)
  | _ => None
  end.

(** One turn of the loop of [__enter__]: [persona] is built from the
    entries of [persona_dict], then
    [self.config.personas[persona.persona_name] = persona]. [acc] is
    [self.config.personas], or [None] once it holds a value that is not a
    [str]. *)
Definition load_persona (acc : option (dict Persona)) (persona_dict : json)
  : result (option (dict Persona)) :=
  match Persona_kwargs persona_dict with
  | Raise e => Raise e
  | Return (n, c, e, s) =>
      if hashable n then
        match acc, as_str n, as_str c, as_str e, as_str s with
        | Some d, Some n', Some c', Some e', Some s' =>
            Return (Some (dict_set n' (mkPersona n' c' e' s') d))
        | _, _, _, _, _ => Return None
        end
      else Raise TypeError
  end.

Fixpoint load_personas (acc : option (dict Persona)) (l : list json)
  : result (option (dict Persona)) :=
  match l with
  | [] => Return acc
  | persona_dict :: l' =>
      match load_persona acc persona_dict with
      | Raise e => Raise e
      | Return acc' => load_personas acc' l'
      end
  end.

(** The body of the [try] block of [__enter__]. *)
Definition load_config (f : file) : result loaded :=
  match json_load f with
  | Raise e => Raise e
  | Return _dict =>
      match py_getitem _dict "current_persona" with
      | Raise e => Raise e
      | Return cur =>
          match py_getitem _dict "personas" with
          | Raise e => Raise e
          | Return ps =>
              match py_values ps with
              | Raise e => Raise e
              | Return l =>
                  match load_personas (Some []) l with
                  | Raise e => Raise e
                  | Return acc =>
                      match loaded_current cur, acc with
                      | Some cur', Some d => Return (Typed (mkConfig cur' d))
                      | _, _ => Return Untyped
                      end
                  end
              end
          end
      end
  end.

(** [__enter__]: any exception of the body resets the registry. *)
Definition __enter__ (f : file) : loaded :=
  match load_config f with
  | Return r => r
  | Raise _ => Typed (mkConfig None [])
  end.

(** ** The command line: [main] *)

(** The outcome of [parser.parse_args()]: the subcommand and its arguments.
    [rename] takes two positional arguments that the body never reads. *)
Inductive args :=
| subcommand_add
| subcommand_list
| subcommand_remove
| subcommand_become (persona : string) (_global : bool)
| subcommand_rename (old_name new_name : string)
| subcommand_none.

(** What the process writes on its standard output: the prompt of an
    [input] call, or a line of [print]. *)
Inductive output :=
| Prompt (text : string)
| Line (text : string).

(** An exception that leaves [main]: of [input] at the end of the standard
    input, or of a method of [Manager]. *)
Inductive main_exn :=
| EOFError
| ManagerError (e : exn).

Inductive ended (A : Type) :=
| Finished (a : A)
| Uncaught (e : main_exn).
Arguments Finished {A} a.
Arguments Uncaught {A} e.

Record Process := mkProcess {
  manager : World;         (* the manager of the [with] block *)
  stdin : list string;     (* the lines not yet read *)
  stdout : list output     (* what was written, oldest first *)
}.

Definition IO (A : Type) : Type := Process -> ended A * Process.

Definition io_ret {A} (a : A) : IO A := fun p => (Finished a, p).

Definition io_bind {A B} (m : IO A) (k : A -> IO B) : IO B :=
  fun p =>
    match m p with
    | (Finished a, p') => k a p'
    | (Uncaught e, p') => (Uncaught e, p')
    end.

Notation "x <~ m ;; k" := (io_bind m (fun x => k))
  (at level 61, m at next level, right associativity).
Notation "m ~;; k" := (io_bind m (fun _ => k))
  (at level 61, right associativity).

(** [print(s)] *)
Definition print (s : string) : IO unit :=
  fun p =>
    (Finished tt, mkProcess (manager p) (stdin p) (stdout p ++ [Line s])).

(** [input(prompt)]: the prompt is written, then a line is read; at the end
    of the input, [EOFError]. *)
Definition input (prompt : string) : IO string :=
  fun p =>
    match stdin p with
    | [] =>
        (Uncaught EOFError,
         mkProcess (manager p) [] (stdout p ++ [Prompt prompt]))
    | line :: rest =>
        (Finished line,
         mkProcess (manager p) rest (stdout p ++ [Prompt prompt]))
    end.

(** A call of a method of [manager]. *)
Definition call {A} (m : M A) : IO A :=
  fun p =>
    match m (manager p) with
    | (Return a, w) => (Finished a, mkProcess w (stdin p) (stdout p))
    | (Raise e, w) =>
        (Uncaught (ManagerError e), mkProcess w (stdin p) (stdout p))
    end.

(** The loop of the [list] subcommand. *)
Fixpoint print_personas (l : list Persona) : IO unit :=
  match l with
  | [] => io_ret tt
  | persona :: l' =>
      print (persona_name persona ++ ": " ++ commit_name persona
               ++ " <" ++ email persona ++ ">") ~;;
      print_personas l'
  end.

(** The [try] statement of the [become] subcommand: only [ValueError] is
    caught. *)
Definition try_become (persona : string) (_global : bool) : IO unit :=
  fun p =>
    match (call (switch_persona persona _global) ~;;
           print ("Switched to persona " ++ persona)) p with
    | (Uncaught (ManagerError (ValueError _)), p') =>
        print ("Persona " ++ persona ++ " not found") p'
    | r => r
    end.

(** The body of the [with] block of [main]. *)
Definition main_body (a : args) : IO unit :=
  match a with
  | subcommand_add =>
      print "Adding a new persona ..." ~;;
      persona_name <~ input "Persona name: " ;;
      commit_name <~ input "Commit Author name: " ;;
      email <~ input "Commit Author Email address: " ;;
      ssh_key_path <~ input "SSH key path: " ;;
      let persona := mkPersona persona_name commit_name email ssh_key_path in
      call (set_persona persona) ~;;
      print "Persona added"
  | subcommand_list =>
      l <~ call list_personas ;;
      print_personas l
  | subcommand_remove =>
      persona_name <~ input "Persona name: " ;;
      known <~ call (has_persona persona_name) ;;
      if negb known
      then print ("Persona '" ++ persona_name ++ "' not found")
      else
        call (remove_persona persona_name) ~;;
        print ("Removed persona '" ++ persona_name ++ "'")
  | subcommand_rename _ _ =>
      old_name <~ input "Old persona name: " ;;
      new_name <~ input "New persona name: " ;;
      known <~ call (has_persona old_name) ;;
      if negb known
      then print ("Persona '" ++ old_name ++ "' not found")
      else
        call (rename_persona old_name new_name) ~;;
        print ("Renamed persona '" ++ old_name ++ "' to '" ++ new_name ++ "'")
  | subcommand_become persona _global =>
      try_become persona _global
  | subcommand_none =>
      current <~ call get_current_persona ;;
      match current with
      | Some cur =>
          known <~ call (has_persona (persona_name cur)) ;;
          if known
          then print ("Currently using persona: " ++ persona_name cur)
          else print "No persona set"
      | None => print "No persona set"
      end
  end.

(** What a run of the program leaves behind. *)
Record run := mkRun {
  status : ended unit;     (* [main] returned, or the exception that left it *)
  printed : list output;
  commands : list string;  (* the commands given to [os.system] *)
  saved : file             (* the file after [__exit__] *)
}.

(** [main], on the parsed arguments, the lines of the standard input and the
    file at [config_path]. [__exit__] runs when the block is left, by its
    end, by [return] or by an exception, which then goes on. A file that
    loads as [Untyped] gives no run in this model. *)
Definition main (a : args) (lines : list string) (f : file) : option run :=
  match __enter__ f with
  | Untyped => None
  | Typed c =>
      let (r, p) := main_body a (mkProcess (mkWorld c []) lines []) in
      Some (mkRun r (stdout p) (os_system (manager p))
                  (__exit__ (config (manager p))))
  end.

(** ** Vocabulary of the properties *)

(** One [git config] invocation as [switch_persona] spells it: the scope
    modifier ([--global] or nothing), the key, and the value in double
    quotes. *)
Definition git_config (_global : bool) (key value : string) : string :=
  "git config " ++ (if _global then "--global" else EmptyString)
  ++ " " ++ key ++ " " ++ dquote ++ value ++ dquote.

(** The three commands of [switch_persona] for a persona, in order. *)
Definition switch_commands (_global : bool) (p : Persona) : list string :=
  [ git_config _global "user.name" (commit_name p);
    git_config _global "user.email" (email p);
    git_config _global "core.sshCommand" ("ssh -i " ++ ssh_key_path p) ].

(** The commands of a sequence that [os.system] runs: those before the first
    one that holds a NUL character. *)
Fixpoint runnable (cmds : list string) : list string :=
  match cmds with
  | [] => []
  | cmd :: cmds' => if has_nul cmd then [] else cmd :: runnable cmds'
  end.

(** No field that goes into a command holds a NUL character. *)
Definition nul_free (p : Persona) : bool :=
  negb (has_nul (commit_name p)) && negb (has_nul (email p))
  && negb (has_nul (ssh_key_path p)).

(** [x] comes no later than [y] in the order of [sorted(..., key=key)]. *)
Definition key_le {A} (key : A -> string) (x y : A) : Prop :=
  String.leb (key x) (key y) = true.

(** Every key of the mapping is the name of the record stored under it. *)
Definition name_is_key (c : Config) : Prop :=
  Forall (fun kv => persona_name (snd kv) = fst kv) (personas c).

(** [v] is a JSON object with a member named [k]. *)
Definition has_field (k : string) (v : json) : bool :=
  match py_getitem v k with
  | Return _ => true
  | Raise _ => false
  end.

Definition empty_registry : Config := mkConfig None [].

(** What the loop of [__enter__] keeps true of [self.config.personas]. *)
Definition personas_ok (d : dict Persona) : Prop :=
  Forall (fun kv => persona_name (snd kv) = fst kv) d /\ dict_wf d.

(** The mapping that holds the records of [l], stored one after the other,
    each under its own name. *)
Definition personas_by_name (l : list Persona) : dict Persona :=
  fold_left (fun d p => dict_set (persona_name p) p d) l [].

(** The line that the [list] subcommand prints for a persona. *)
Definition list_line (p : Persona) : output :=
  Line (persona_name p ++ ": " ++ commit_name p ++ " <" ++ email p ++ ">").

(** The prompts of the [add] subcommand, in order. *)
Definition add_prompts : list output :=
  [ Prompt "Persona name: "; Prompt "Commit Author name: ";
    Prompt "Commit Author Email address: "; Prompt "SSH key path: " ].

(** The registry of [w] has pairwise distinct keys, each the name of its
    record. *)
Definition registry_ok (w : World) : Prop :=
  personas_ok (personas (config w)).

(** A method, or a piece of [main], hands on [registry_ok]. *)
Definition m_keeps {A} (m : M A) : Prop :=
  forall w, registry_ok w -> registry_ok (snd (m w)).

Definition io_keeps {A} (m : IO A) : Prop :=
  forall p, registry_ok (manager p) -> registry_ok (manager (snd (m p))).

(** What is left when the [with] block ends in [x]. *)
Definition run_of (x : ended unit * Process) : run :=
  mkRun (fst x) (stdout (snd x)) (os_system (manager (snd x)))
        (__exit__ (config (manager (snd x)))).

(** What the program without a subcommand prints, and how it ends, on the
    configuration [c]. *)
Definition report_current (c : Config) : ended unit * list output :=
  match current_persona c with
  | None => (Finished tt, [Line "No persona set"])
  | Some name =>
      if String.eqb name EmptyString
      then (Finished tt, [Line "No persona set"])
      else if dict_contains name (personas c)
      then (Finished tt, [Line ("Currently using persona: " ++ name)])
      else (Uncaught (ManagerError (KeyError name)), [])
  end.

(** ** Sample registries *)

Definition work : Persona :=
  mkPersona "work" "Ada Lovelace" "ada@example.com" "/home/ada/.ssh/id_work".

Definition play : Persona :=
  mkPersona "play" "ada" "ada@home.example" "/home/ada/.ssh/id_play".

Definition nameless : Persona :=
  mkPersona EmptyString "nobody" "nobody@example.com" "/dev/null".

(** The registry of a first run: no file, hence no persona. *)
Definition fresh : World := mkWorld (mkConfig None []) [].

(** [add] work, [become] work, then [remove] work. *)
Definition after_remove : World :=
  snd ((set_persona work ;;
        switch_persona "work" false ;;
        remove_persona "work") fresh).

(** [add] work, [add] play, [become] work. *)
Definition two_personas : World :=
  snd ((set_persona work ;;
        set_persona play ;;
        switch_persona "work" false) fresh).

(** ** Facts about dictionaries *)

Section DictFacts.
Context {V : Type}.
Implicit Types (d : dict V) (k : string) (v : V).

Lemma dict_contains_get k d :
  dict_contains k d = false <-> dict_get k d = None.
Proof.
  unfold dict_contains. destruct (dict_get k d); split; congruence.
Qed.

Lemma dict_get_In_keys k d :
  dict_get k d <> None <-> In k (dict_keys d).
Proof.
  induction d as [|[k' v'] d IH]; simpl.
  - split; [congruence | tauto].
  - destruct (String.eqb_spec k k') as [->|Hne].
    + split; [auto | congruence].
    + rewrite IH. split; [auto | intros [H|H]; [congruence | exact H]].
Qed.

Lemma dict_get_set_same k v d : dict_get k (dict_set k v d) = Some v.
Proof.
  induction d as [|[k' v'] d IH]; simpl.
  - now rewrite String.eqb_refl.
  - destruct (String.eqb k k') eqn:E; simpl; now rewrite E.
Qed.

Lemma dict_get_set_other k k' v d :
  k <> k' -> dict_get k' (dict_set k v d) = dict_get k' d.
Proof.
  intros Hne. induction d as [|[k0 v0] d IH]; simpl.
  - destruct (String.eqb_spec k' k); congruence.
  - destruct (String.eqb k k0) eqn:E; simpl.
    + apply String.eqb_eq in E. subst k0.
      destruct (String.eqb_spec k' k); congruence.
    + now rewrite IH.
Qed.

Lemma dict_keys_set k v d :
  dict_keys (dict_set k v d) =
  if dict_contains k d then dict_keys d else (dict_keys d ++ [k])%list.
Proof.
  unfold dict_contains.
  induction d as [|[k' v'] d IH]; simpl; [reflexivity|].
  destruct (String.eqb k k'); simpl; [reflexivity|].
  rewrite IH. now destruct (dict_get k d).
Qed.

Lemma dict_set_fresh k v d :
  dict_get k d = None -> dict_set k v d = (d ++ [(k, v)])%list.
Proof.
  induction d as [|[k' v'] d IH]; simpl; [reflexivity|].
  destruct (String.eqb k k'); [discriminate|].
  intros H. now rewrite IH.
Qed.

Lemma dict_wf_set k v d : dict_wf d -> dict_wf (dict_set k v d).
Proof.
  unfold dict_wf. intros Hwf. rewrite dict_keys_set.
  destruct (dict_contains k d) eqn:E; [exact Hwf|].
  apply dict_contains_get in E.
  apply NoDup_app; [exact Hwf | repeat constructor; simpl; tauto |].
  intros x Hx [<-|[]]. apply dict_get_In_keys in Hx. congruence.
Qed.

Lemma dict_del_None k d : dict_del k d = None <-> dict_get k d = None.
Proof.
  induction d as [|[k' v'] d IH]; simpl; [tauto|].
  destruct (String.eqb k k'); [split; discriminate|].
  rewrite <- IH. destruct (dict_del k d); split; congruence.
Qed.

Lemma dict_del_incl k d d' :
  dict_del k d = Some d' -> incl d' d.
Proof.
  revert d'. induction d as [|[k' v'] d IH]; simpl; [discriminate|].
  intros d'. destruct (String.eqb k k').
  - intros [= <-]. apply incl_tl, incl_refl.
  - destruct (dict_del k d) as [d''|]; [|discriminate].
    intros [= <-]. apply incl_cons; [now left|].
    apply incl_tl. now apply IH.
Qed.

Lemma dict_del_keys k d d' :
  dict_del k d = Some d' ->
  exists l1 l2,
    dict_keys d = (l1 ++ k :: l2)%list /\ dict_keys d' = (l1 ++ l2)%list.
Proof.
  revert d'. induction d as [|[k' v'] d IH]; simpl; [discriminate|].
  intros d'. destruct (String.eqb_spec k k') as [<-|Hne].
  - intros [= <-]. now exists [], (dict_keys d).
  - destruct (dict_del k d) as [d''|]; [|discriminate].
    intros [= <-]. destruct (IH d'' eq_refl) as (l1 & l2 & E1 & E2).
    exists (k' :: l1), l2. simpl. now rewrite E1, E2.
Qed.

Lemma dict_wf_del k d d' :
  dict_wf d -> dict_del k d = Some d' ->
  dict_wf d' /\ dict_get k d' = None.
Proof.
  unfold dict_wf. intros Hwf Hdel.
  destruct (dict_del_keys _ _ _ Hdel) as (l1 & l2 & E1 & E2).
  rewrite E1 in Hwf. split.
  - rewrite E2. now apply NoDup_remove_1 in Hwf.
  - destruct (dict_get k d') eqn:G; [|reflexivity].
    exfalso. apply NoDup_remove_2 in Hwf. apply Hwf.
    rewrite <- E2. apply dict_get_In_keys. congruence.
Qed.

Lemma dict_get_del_other k k' d d' :
  k <> k' -> dict_del k d = Some d' -> dict_get k' d' = dict_get k' d.
Proof.
  intros Hne. revert d'.
  induction d as [|[k0 v0] d IH]; simpl; [discriminate|].
  intros d'. destruct (String.eqb_spec k k0) as [<-|Hne0].
  - intros [= <-]. destruct (String.eqb_spec k' k); congruence.
  - destruct (dict_del k d) as [d''|]; [|discriminate].
    intros [= <-]. simpl. now rewrite (IH d'' eq_refl).
Qed.

End DictFacts.

(** ** The methods, one by one *)

Ltac run :=
  unfold get_current_persona, switch_persona, rename_persona, remove_persona,
    set_persona, get_persona, has_persona, list_personas,
    personas_getitem, personas_setitem, personas_delitem,
    get_personas, put_personas, get_current, put_current, os_system_call,
    bind, ret, raise; simpl.

(** C1 (the code departs from the claim). A current persona that is a
    non-empty name absent from the mapping makes [get_current_persona] raise
    [KeyError]: the lookup [self.config.personas[...]] is not guarded, whereas
    the claim asks for [None] or a not-found value. *)
Theorem get_current_persona_dangling_raises (w : World) (name : string) :
  current_persona (config w) = Some name ->
  truthy (Some name) = true ->
  dict_contains name (personas (config w)) = false ->
  get_current_persona w = (Raise (KeyError name), w).
Proof.
  intros Hcur Htruthy Habsent. apply dict_contains_get in Habsent.
  run. rewrite Hcur, Htruthy. simpl. now rewrite Habsent.
Qed.

Lemma get_current_persona_dangling_raises_witness :
  get_current_persona after_remove = (Raise (KeyError "work"), after_remove).
Proof.
  apply (get_current_persona_dangling_raises after_remove "work");
    reflexivity.
Defined.

(** C10. When the current persona is the empty string,
    [get_current_persona] returns [None], whatever the mapping holds, a
    persona keyed by the empty string included: the empty string counts as no
    current persona. *)
Theorem get_current_persona_empty_name (w : World) :
  current_persona (config w) = Some EmptyString ->
  get_current_persona w = (Return None, w).
Proof.
  intros Hcur. run. now rewrite Hcur.
Qed.

Lemma get_current_persona_empty_name_witness :
  let w := mkWorld (mkConfig (Some EmptyString)
                             [(EmptyString, nameless); ("work", work)]) [] in
  fst (has_persona EmptyString w) = Return true /\
  get_current_persona w = (Return None, w).
Proof.
  split; [reflexivity|].
  apply get_current_persona_empty_name. reflexivity.
Defined.

(** C7. Removing a name that is absent from the mapping raises [KeyError]
    and leaves the registry, current persona included, as it was. *)
Theorem remove_persona_unknown (w : World) (name : string) :
  dict_contains name (personas (config w)) = false ->
  remove_persona name w = (Raise (KeyError name), w).
Proof.
  intros Habsent. apply dict_contains_get, dict_del_None in Habsent.
  run. now rewrite Habsent.
Qed.

Lemma remove_persona_unknown_witness :
  remove_persona "nobody" two_personas
  = (Raise (KeyError "nobody"), two_personas).
Proof.
  apply remove_persona_unknown. reflexivity.
Defined.

Lemma has_nul_app (a b : string) :
  has_nul (a ++ b) = has_nul a || has_nul b.
Proof.
  induction a as [|c a IH]; simpl; [reflexivity|].
  now rewrite IH, orb_assoc.
Qed.

Lemma has_nul_git_config (_global : bool) (value : string) :
  has_nul (git_config _global "user.name" value) = has_nul value /\
  has_nul (git_config _global "user.email" value) = has_nul value /\
  has_nul (git_config _global "core.sshCommand" ("ssh -i " ++ value))
  = has_nul value.
Proof.
  unfold git_config.
  destruct _global; simpl; rewrite !has_nul_app; simpl;
    now rewrite !orb_false_r.
Qed.

Lemma switch_commands_nul_free (_global : bool) (p : Persona) :
  forallb (fun cmd => negb (has_nul cmd)) (switch_commands _global p)
  = nul_free p.
Proof.
  unfold switch_commands, nul_free. cbn [forallb].
  destruct (has_nul_git_config _global (commit_name p)) as (-> & _ & _).
  destruct (has_nul_git_config _global (email p)) as (_ & -> & _).
  destruct (has_nul_git_config _global (ssh_key_path p)) as (_ & _ & ->).
  now rewrite andb_true_r, andb_assoc.
Qed.

Lemma runnable_all (cmds : list string) :
  forallb (fun cmd => negb (has_nul cmd)) cmds = true -> runnable cmds = cmds.
Proof.
  induction cmds as [|cmd cmds IH]; simpl; [reflexivity|].
  destruct (has_nul cmd); simpl; [discriminate|].
  intros H. now rewrite IH.
Qed.

(** [switch_persona] on a name of the mapping: the current persona is set
    first; the commands are then run up to the first that is refused. *)
Lemma switch_persona_run (w : World) (name : string) (_global : bool) p :
  dict_get name (personas (config w)) = Some p ->
  switch_persona name _global w
  = ((if forallb (fun cmd => negb (has_nul cmd)) (switch_commands _global p)
      then Return tt
      else Raise (ValueError "embedded null byte")),
     mkWorld (mkConfig (Some name) (personas (config w)))
             (os_system w ++ runnable (switch_commands _global p))).
Proof.
  intros Hget.
  assert (Hcmds : switch_commands _global p =
    [ "git config " ++ (if _global then "--global" else EmptyString)
        ++ " user.name " ++ dquote ++ commit_name p ++ dquote;
      "git config " ++ (if _global then "--global" else EmptyString)
        ++ " user.email " ++ dquote ++ email p ++ dquote;
      "git config " ++ (if _global then "--global" else EmptyString)
        ++ " core.sshCommand " ++ dquote ++ "ssh -i " ++ ssh_key_path p
        ++ dquote ]).
  { unfold switch_commands, git_config. now destruct _global. }
  rewrite Hcmds.
  unfold switch_persona, personas_getitem, get_personas, put_current,
    os_system_call, bind, ret, raise, dict_contains.
  cbn [config personas current_persona os_system]. rewrite Hget.
  cbn [negb config personas current_persona os_system]. rewrite Hget.
  cbn [forallb runnable].
  destruct (has_nul ("git config " ++ _ ++ " user.name " ++ _));
    cbn [negb andb config os_system]; [now rewrite app_nil_r|].
  destruct (has_nul ("git config " ++ _ ++ " user.email " ++ _));
    cbn [negb andb config os_system]; [reflexivity|].
  destruct (has_nul ("git config " ++ _ ++ " core.sshCommand " ++ _));
    cbn [negb andb config os_system]; rewrite <- !app_assoc; reflexivity.
Qed.

(** C6. [switch_persona] on a name absent from the mapping raises
    [ValueError] and leaves the state as it was. Whenever it returns, the
    name is a key, the current persona is that name, the mapping is kept, and
    exactly three commands were run after those already run: [user.name]
    with the commit name, [user.email] with the email and [core.sshCommand]
    with [ssh -i] and the key path, each with [--global] exactly when the
    scope is global. It does return for every key whose commit name, email
    and key path hold no NUL character. *)
Theorem switch_persona_spec (w : World) (name : string) (_global : bool) :
  (dict_contains name (personas (config w)) = false ->
   exists msg, switch_persona name _global w = (Raise (ValueError msg), w))
  /\
  (forall w',
     switch_persona name _global w = (Return tt, w') ->
     exists p,
       dict_get name (personas (config w)) = Some p /\
       w' = mkWorld (mkConfig (Some name) (personas (config w)))
                    (os_system w ++
                     [ git_config _global "user.name" (commit_name p);
                       git_config _global "user.email" (email p);
                       git_config _global "core.sshCommand"
                                  ("ssh -i " ++ ssh_key_path p) ]))
  /\
  (forall p,
     dict_get name (personas (config w)) = Some p ->
     nul_free p = true ->
     switch_persona name _global w =
     (Return tt,
      mkWorld (mkConfig (Some name) (personas (config w)))
              (os_system w ++
               [ git_config _global "user.name" (commit_name p);
                 git_config _global "user.email" (email p);
                 git_config _global "core.sshCommand"
                            ("ssh -i " ++ ssh_key_path p) ]))).
Proof.
  split; [|split].
  - intros Habsent. eexists. run. rewrite Habsent. reflexivity.
  - intros w' Hrun.
    destruct (dict_get name (personas (config w))) as [p|] eqn:Hget.
    + exists p. split; [reflexivity|].
      rewrite (switch_persona_run w name _global p Hget) in Hrun.
      destruct (forallb _ (switch_commands _global p)) eqn:Hall;
        [|discriminate].
      rewrite (runnable_all _ Hall) in Hrun. now injection Hrun as <-.
    + exfalso. revert Hrun. run. unfold dict_contains. rewrite Hget.
      discriminate.
  - intros p Hget Hfree.
    rewrite (switch_persona_run w name _global p Hget).
    rewrite runnable_all; rewrite switch_commands_nul_free, Hfree;
      reflexivity.
Qed.

Lemma switch_persona_spec_witness :
  (exists msg,
     switch_persona "nobody" true two_personas
     = (Raise (ValueError msg), two_personas))
  /\
  (exists p,
     dict_get "play" (personas (config two_personas)) = Some p /\
     snd (switch_persona "play" true two_personas)
     = mkWorld (mkConfig (Some "play") (personas (config two_personas)))
               (os_system two_personas ++
                [ git_config true "user.name" (commit_name p);
                  git_config true "user.email" (email p);
                  git_config true "core.sshCommand"
                             ("ssh -i " ++ ssh_key_path p) ]))
  /\
  switch_persona "play" true two_personas =
  (Return tt,
   mkWorld (mkConfig (Some "play") (personas (config two_personas)))
           (os_system two_personas ++
            [ git_config true "user.name" "ada";
              git_config true "user.email" "ada@home.example";
              git_config true "core.sshCommand"
                         "ssh -i /home/ada/.ssh/id_play" ])).
Proof.
  destruct (switch_persona_spec two_personas "play" true)
    as (_ & Hreturns & Hkey).
  split; [|split].
  - apply (proj1 (switch_persona_spec two_personas "nobody" true)).
    reflexivity.
  - apply (Hreturns (snd (switch_persona "play" true two_personas))).
    reflexivity.
  - apply (Hkey play); reflexivity.
Defined.

(** C5 (amended). Renaming a persona keyed [a] to [b] succeeds; afterwards
    [b] is a key, its record has name [b] and the commit name, email and key
    path of the old record, [a] is no longer a key when [b] differs from [a]
    (and still is one when [b] is [a]), and the current persona is what it
    was before, so a current persona [a] is left dangling. *)
Theorem rename_persona_spec (w : World) (a b : string) (p : Persona) :
  dict_wf (personas (config w)) ->
  dict_get a (personas (config w)) = Some p ->
  exists w',
    rename_persona a b w = (Return tt, w') /\
    fst (has_persona a w') = Return (String.eqb a b) /\
    fst (has_persona b w') = Return true /\
    fst (get_persona b w') =
      Return (mkPersona b (commit_name p) (email p) (ssh_key_path p)) /\
    current_persona (config w') = current_persona (config w).
Proof.
  intros Hwf Hget.
  destruct (dict_del a (personas (config w))) as [d'|] eqn:Hdel.
  2:{ apply dict_del_None in Hdel. congruence. }
  destruct (dict_wf_del _ _ _ Hwf Hdel) as [_ Hgone].
  eexists. split.
  { run. rewrite Hget. simpl. rewrite Hdel. simpl. reflexivity. }
  run. unfold dict_contains, with_persona_name.
  rewrite dict_get_set_same. repeat split; try reflexivity.
  destruct (String.eqb_spec a b) as [->|Hne].
  - now rewrite dict_get_set_same.
  - rewrite dict_get_set_other by congruence. now rewrite Hgone.
Qed.

Lemma rename_persona_spec_witness :
  exists w',
    rename_persona "work" "job" two_personas = (Return tt, w') /\
    fst (has_persona "work" w') = Return false /\
    fst (has_persona "job" w') = Return true /\
    fst (get_persona "job" w') =
      Return (mkPersona "job" "Ada Lovelace" "ada@example.com"
                        "/home/ada/.ssh/id_work") /\
    current_persona (config w') = Some "work".
Proof.
  apply (rename_persona_spec two_personas "work" "job" work).
  - repeat constructor; simpl; intuition discriminate.
  - reflexivity.
Defined.

(** C5, as stated, fails when the new name is the old one: the persona is
    removed and put back under the same key, so [has_persona] of the old name
    is true after the call. *)
Lemma rename_persona_to_same_name :
  dict_get "work" (personas (config two_personas)) = Some work /\
  fst (rename_persona "work" "work" two_personas) = Return tt /\
  fst (has_persona "work" (snd (rename_persona "work" "work" two_personas)))
  = Return true.
Proof. repeat split. Qed.

(** ** Listing *)

Section Sorting.
Context {A : Type} (key : A -> string).

Lemma string_leb_trans (a b c : string) :
  String.leb a b = true -> String.leb b c = true -> String.leb a c = true.
Proof.
  unfold String.leb. revert b c.
  induction a as [|x a IH]; intros [|y b] [|z c]; simpl;
    try reflexivity; try discriminate.
  unfold Ascii.compare.
  destruct (N.compare_spec (N_of_ascii x) (N_of_ascii y)) as [Exy|Lxy|Gxy];
    try discriminate;
    destruct (N.compare_spec (N_of_ascii y) (N_of_ascii z)) as [Eyz|Lyz|Gyz];
    try discriminate;
    destruct (N.compare_spec (N_of_ascii x) (N_of_ascii z)) as [Exz|Lxz|Gxz];
    try reflexivity; try lia.
  apply IH.
Qed.

Lemma sorted_insert_perm x l : Permutation (sorted_insert key x l) (x :: l).
Proof.
  induction l as [|y l IH]; simpl; [reflexivity|].
  destruct (String.leb (key x) (key y)); [reflexivity|].
  rewrite IH. apply perm_swap.
Qed.

Lemma sorted_perm l : Permutation (sorted key l) l.
Proof.
  induction l as [|x l IH]; simpl; [reflexivity|].
  rewrite sorted_insert_perm. now rewrite IH.
Qed.

Lemma sorted_insert_sorted x l :
  StronglySorted (key_le key) l -> StronglySorted (key_le key) (sorted_insert key x l).
Proof.
  induction 1 as [|y l Hl IH Hy]; simpl.
  - repeat constructor.
  - destruct (String.leb (key x) (key y)) eqn:E.
    + constructor; [now constructor|].
      constructor; [exact E|].
      eapply Forall_impl; [|exact Hy].
      intros z Hz. exact (string_leb_trans _ _ _ E Hz).
    + constructor; [exact IH|].
      rewrite sorted_insert_perm. constructor; [|exact Hy].
      destruct (String.leb_total (key x) (key y)); [congruence | assumption].
Qed.

Lemma sorted_sorted l : StronglySorted (key_le key) (sorted key l).
Proof.
  induction l as [|x l IH]; simpl; [constructor|].
  now apply sorted_insert_sorted.
Qed.

End Sorting.

(** C8. [list_personas] returns the personas of the mapping, each once,
    in ascending order of name, and leaves the state alone; for the mapping
    with keys zeta, alpha and mike it returns alpha, mike, zeta; for the empty
    mapping it returns the empty list. *)
Theorem list_personas_sorted :
  (forall w : World,
     exists l,
       list_personas w = (Return l, w) /\
       Permutation l (dict_values (personas (config w))) /\
       StronglySorted (key_le persona_name) l)
  /\
  (forall cz ez kz ca ea ka cm em km cur log,
     let zeta := mkPersona "zeta" cz ez kz in
     let alpha := mkPersona "alpha" ca ea ka in
     let mike := mkPersona "mike" cm em km in
     fst (list_personas
            (mkWorld (mkConfig cur [("zeta", zeta); ("alpha", alpha);
                                    ("mike", mike)]) log))
     = Return [alpha; mike; zeta])
  /\
  (forall cur log,
     fst (list_personas (mkWorld (mkConfig cur []) log)) = Return []).
Proof.
  split; [|split].
  - intros w. eexists. split; [reflexivity|]. split.
    + apply sorted_perm.
    + apply sorted_sorted.
  - reflexivity.
  - reflexivity.
Qed.

(** ** Persistence *)

Lemma name_is_key_get c k p :
  name_is_key c -> dict_get k (personas c) = Some p -> persona_name p = k.
Proof.
  unfold name_is_key. induction 1 as [|[k' p'] d Hkv _ IH]; simpl.
  - discriminate.
  - destruct (String.eqb_spec k k') as [->|_]; [|exact IH].
    intros [= <-]. exact Hkv.
Qed.

Section DictForall.
Context {V : Type} (P : string * V -> Prop).

Lemma Forall_dict_set k v (d : dict V) :
  Forall P d -> P (k, v) -> Forall P (dict_set k v d).
Proof.
  intros Hd Hkv. induction Hd as [|[k' v'] d Hx Hd IH]; simpl.
  - now repeat constructor.
  - destruct (String.eqb_spec k k') as [<-|_]; now constructor.
Qed.

Lemma Forall_dict_del k (d d' : dict V) :
  Forall P d -> dict_del k d = Some d' -> Forall P d'.
Proof.
  intros Hd Hdel. apply dict_del_incl in Hdel.
  rewrite Forall_forall in *. auto.
Qed.

End DictForall.

(** The members of an object without a repeated name are the dictionary
    that [json.load] builds from them. *)
Lemma dict_of_members_fresh (l acc : dict json) :
  dict_wf (acc ++ l)%list ->
  fold_left (fun d kv => dict_set (fst kv) (snd kv) d) l acc = (acc ++ l)%list.
Proof.
  revert acc. induction l as [|[k v] l IH]; intros acc Hwf; simpl.
  - now rewrite app_nil_r.
  - assert (Hfresh : dict_get k acc = None).
    { unfold dict_wf, dict_keys in Hwf. rewrite map_app in Hwf. simpl in Hwf.
      apply NoDup_remove_2 in Hwf.
      destruct (dict_get k acc) eqn:G; [|reflexivity].
      exfalso. apply Hwf, in_or_app. left.
      apply dict_get_In_keys. congruence. }
    rewrite (dict_set_fresh _ _ _ Hfresh).
    rewrite IH; rewrite <- app_assoc; [reflexivity | exact Hwf].
Qed.

Lemma dict_of_members_wf (d : dict json) :
  dict_wf d -> dict_of_members d = d.
Proof. intros Hwf. exact (dict_of_members_fresh d [] Hwf). Qed.

Lemma Persona_kwargs_asdict p :
  Persona_kwargs (asdict_Persona p) =
  Return (JString (persona_name p), JString (commit_name p),
          JString (email p), JString (ssh_key_path p)).
Proof. destruct p. reflexivity. Qed.

Lemma load_persona_asdict acc p :
  load_persona (Some acc) (asdict_Persona p) =
  Return (Some (dict_set (persona_name p) p acc)).
Proof.
  unfold load_persona. rewrite Persona_kwargs_asdict. now destruct p.
Qed.

Lemma load_personas_asdict (d acc : dict Persona) :
  dict_wf (acc ++ d)%list ->
  Forall (fun kv => persona_name (snd kv) = fst kv) d ->
  load_personas (Some acc) (map asdict_Persona (dict_values d))
  = Return (Some (acc ++ d)%list).
Proof.
  unfold dict_values.
  revert acc. induction d as [|[k p] d IH]; intros acc Hwf Hkeys;
    cbn [map snd load_personas].
  - now rewrite app_nil_r.
  - inversion Hkeys as [|? ? Hk Hd]; subst. simpl in Hk.
    rewrite load_persona_asdict, Hk.
    assert (Hfresh : dict_get k acc = None).
    { unfold dict_wf, dict_keys in Hwf. rewrite map_app in Hwf. simpl in Hwf.
      apply NoDup_remove_2 in Hwf.
      destruct (dict_get k acc) eqn:G; [|reflexivity].
      exfalso. apply Hwf, in_or_app. left.
      apply dict_get_In_keys. congruence. }
    rewrite (dict_set_fresh _ _ _ Hfresh).
    rewrite IH; [| |exact Hd]; rewrite <- app_assoc; [reflexivity | exact Hwf].
Qed.

Lemma asdict_personas_keys (d : dict Persona) :
  dict_keys (map (fun kv => (fst kv, asdict_Persona (snd kv))) d)
  = dict_keys d.
Proof. unfold dict_keys. rewrite map_map. reflexivity. Qed.

Lemma asdict_personas_values (d : dict Persona) :
  dict_values (map (fun kv => (fst kv, asdict_Persona (snd kv))) d)
  = map asdict_Persona (dict_values d).
Proof. unfold dict_values. now rewrite !map_map. Qed.

Lemma asdict_current_persona (c : Config) :
  py_getitem (asdict c) "current_persona"
  = Return (asdict_current (current_persona c)).
Proof. reflexivity. Qed.

Lemma asdict_personas (c : Config) :
  py_getitem (asdict c) "personas"
  = Return (JObject (map (fun kv => (fst kv, asdict_Persona (snd kv)))
                         (personas c))).
Proof. reflexivity. Qed.

(** Saving and loading again gives the registry back. *)
Lemma enter_exit (c : Config) :
  dict_wf (personas c) -> name_is_key c -> __enter__ (__exit__ c) = Typed c.
Proof.
  intros Hwf Hkeys.
  unfold __enter__, __exit__, load_config, json_load.
  rewrite asdict_current_persona, asdict_personas. unfold py_values.
  rewrite dict_of_members_wf
    by (unfold dict_wf; now rewrite asdict_personas_keys).
  rewrite asdict_personas_values.
  pose proof (load_personas_asdict (personas c) [] Hwf Hkeys) as Hload.
  unfold dict in *. rewrite Hload.
  destruct c as [[cur|] d]; reflexivity.
Qed.

Lemma load_persona_ok d v d' :
  personas_ok d -> load_persona (Some d) v = Return (Some d') ->
  personas_ok d'.
Proof.
  intros [Hkeys Hwf]. unfold load_persona.
  destruct (Persona_kwargs v) as [[[[n c] e] s]|]; [|discriminate].
  destruct (hashable n); [|discriminate].
  destruct (as_str n) as [n'|]; [|discriminate].
  destruct (as_str c) as [c'|]; [|discriminate].
  destruct (as_str e) as [e'|]; [|discriminate].
  destruct (as_str s) as [s'|]; [|discriminate].
  intros [= <-]. split.
  - now apply Forall_dict_set.
  - now apply dict_wf_set.
Qed.

Lemma load_persona_untyped v acc :
  load_persona None v = Return acc -> acc = None.
Proof.
  unfold load_persona.
  destruct (Persona_kwargs v) as [[[[n c] e] s]|]; [|discriminate].
  destruct (hashable n); [|discriminate].
  now intros [= <-].
Qed.

Lemma load_personas_ok l : forall acc d',
  (forall d, acc = Some d -> personas_ok d) ->
  load_personas acc l = Return (Some d') -> personas_ok d'.
Proof.
  induction l as [|v l IH]; intros acc d' Hacc; simpl.
  - intros [= ->]. now apply Hacc.
  - destruct (load_persona acc v) as [acc'|] eqn:Hv; [|discriminate].
    apply IH. intros d ->. destruct acc as [d0|].
    + eapply load_persona_ok; [|exact Hv]. now apply Hacc.
    + apply load_persona_untyped in Hv. discriminate.
Qed.

Lemma enter_ok f c : __enter__ f = Typed c -> personas_ok (personas c).
Proof.
  assert (Hnil : personas_ok (@nil (string * Persona))).
  { split; constructor. }
  unfold __enter__, load_config.
  destruct (json_load f) as [j|]; [|now intros [= <-]].
  destruct (py_getitem j "current_persona") as [cur|]; [|now intros [= <-]].
  destruct (py_getitem j "personas") as [ps|]; [|now intros [= <-]].
  destruct (py_values ps) as [l|]; [|now intros [= <-]].
  destruct (load_personas (Some []) l) as [acc|] eqn:Hl; [|now intros [= <-]].
  destruct (loaded_current cur) as [cur'|]; [|discriminate].
  destruct acc as [d|]; [|discriminate].
  intros [= <-]. simpl.
  eapply load_personas_ok; [|exact Hl]. now intros d0 [= <-].
Qed.

(** [Untyped] arises only for a JSON file that has both members and whose
    loop ran to its end: a file the [try] block fails on is never [Untyped]. *)
Lemma enter_untyped_inv f :
  __enter__ f = Untyped ->
  exists j, f = JsonText j /\
            has_field "current_persona" j = true /\
            has_field "personas" j = true.
Proof.
  unfold __enter__, load_config, has_field.
  destruct f as [| |j]; simpl; try discriminate.
  intros H. exists j. split; [reflexivity|].
  destruct (py_getitem j "current_persona"); [|discriminate].
  destruct (py_getitem j "personas"); [|discriminate].
  now split.
Qed.

Example enter_number_as_current :
  __enter__ (JsonText (JObject [ ("current_persona", JNumber "5");
                                 ("personas", JObject []) ]))
  = Untyped.
Proof. reflexivity. Qed.

Example enter_repeated_member :
  __enter__ (JsonText (JObject [ ("current_persona", JString "play");
                                 ("personas", JObject []);
                                 ("current_persona", JNull) ]))
  = Typed empty_registry.
Proof. reflexivity. Qed.

Example enter_extra_field_resets :
  __enter__
    (JsonText
       (JObject [ ("current_persona", JString "work");
                  ("personas",
                   JObject [ ("work", asdict_Persona work);
                             ("play",
                              JObject [ ("persona_name", JString "play");
                                        ("commit_name", JString "ada");
                                        ("email", JString "ada@home.example");
                                        ("ssh_key_path", JString "id_play");
                                        ("note", JString "extra") ]) ]) ]))
  = Typed empty_registry.
Proof. reflexivity. Qed.

(** ** The registry across a session *)

(** C9. [__enter__], [set_persona], [rename_persona] and [remove_persona]
    keep every key of the mapping equal to the name of the record stored
    under it: a registry read from any file has the property, and each of
    the three methods, whether it returns or raises, hands it on. *)
Theorem name_is_key_preserved :
  (forall f c, __enter__ f = Typed c -> name_is_key c) /\
  (forall w p,
     name_is_key (config w) -> name_is_key (config (snd (set_persona p w))))
  /\
  (forall w a b,
     name_is_key (config w) ->
     name_is_key (config (snd (rename_persona a b w))))
  /\
  (forall w a,
     name_is_key (config w) ->
     name_is_key (config (snd (remove_persona a w)))).
Proof.
  unfold name_is_key. repeat split.
  - intros f c Hf. now destruct (enter_ok f c Hf).
  - intros w p Hw. run. now apply Forall_dict_set.
  - intros w a b Hw. run.
    destruct (dict_get a (personas (config w))) as [p|]; simpl; [|exact Hw].
    destruct (dict_del a (personas (config w))) as [d'|] eqn:Hdel; simpl;
      [|exact Hw].
    apply Forall_dict_set; [|reflexivity].
    eapply Forall_dict_del; [exact Hw | exact Hdel].
  - intros w a Hw. run.
    destruct (dict_del a (personas (config w))) as [d'|] eqn:Hdel; simpl;
      [|exact Hw].
    eapply Forall_dict_del; [exact Hw | exact Hdel].
Qed.

Lemma name_is_key_preserved_witness :
  name_is_key (config two_personas) /\
  name_is_key (config two_personas) /\
  name_is_key (config (snd (set_persona nameless two_personas))) /\
  name_is_key (config (snd (rename_persona "work" "play" two_personas))) /\
  name_is_key (config (snd (remove_persona "work" two_personas))).
Proof.
  assert (H0 : name_is_key (config two_personas)).
  { repeat constructor. }
  destruct name_is_key_preserved as (Henter & Hset & Hrename & Hremove).
  split; [exact H0|]. split.
  - apply (Henter (__exit__ (config two_personas))). reflexivity.
  - split; [|split].
    + apply Hset, H0.
    + apply Hrename, H0.
    + apply Hremove, H0.
Defined.

(** C3. For a registry whose keys are pairwise distinct and are the names
    of their records, with any current persona or none, writing the file and
    reading it back gives the same mapping and the same current persona. *)
Theorem save_load_roundtrip (c : Config) :
  dict_wf (personas c) -> name_is_key c -> __enter__ (__exit__ c) = Typed c.
Proof. exact (enter_exit c). Qed.

Lemma save_load_roundtrip_witness :
  __enter__ (__exit__ (config two_personas)) = Typed (config two_personas) /\
  __enter__ (__exit__ empty_registry) = Typed empty_registry /\
  __enter__ (__exit__ (config after_remove)) = Typed (config after_remove).
Proof.
  split; [|split].
  - apply (save_load_roundtrip (config two_personas)).
    + repeat constructor; simpl; intuition discriminate.
    + repeat constructor.
  - apply (save_load_roundtrip empty_registry); constructor.
  - apply (save_load_roundtrip (config after_remove)); constructor.
Defined.

(** C4 (amended). A file that is absent, is not JSON, or is JSON without a
    member named [personas] or without a member named [current_persona] (a
    JSON value that is not an object has neither) loads as the empty
    registry: no persona, no current persona. [__enter__] raises on no
    file. *)
Theorem enter_corrupt_resets (f : file) :
  f = NoFile \/ f = NotJson \/
  (exists j, f = JsonText j /\
             (has_field "personas" j = false \/
              has_field "current_persona" j = false)) ->
  __enter__ f = Typed empty_registry.
Proof.
  intros [->|[->|(j & -> & Hj)]]; try reflexivity.
  unfold has_field in Hj. unfold __enter__, load_config, json_load.
  destruct (py_getitem j "current_persona"); [|reflexivity].
  destruct (py_getitem j "personas"); [|reflexivity].
  destruct Hj; discriminate.
Qed.

Lemma enter_corrupt_resets_witness :
  __enter__ NoFile = Typed empty_registry /\
  __enter__ NotJson = Typed empty_registry /\
  __enter__ (JsonText (JArray [JString "personas"])) = Typed empty_registry /\
  __enter__ (JsonText (JObject [("current_persona", JString "work")]))
  = Typed empty_registry /\
  __enter__ (JsonText (JObject [("personas", JObject [])]))
  = Typed empty_registry.
Proof.
  split; [|split; [|split; [|split]]]; apply enter_corrupt_resets.
  - now left.
  - right. now left.
  - right. right. eexists. split; [reflexivity|]. left. reflexivity.
  - right. right. eexists. split; [reflexivity|]. left. reflexivity.
  - right. right. eexists. split; [reflexivity|]. right. reflexivity.
Defined.

(** C4, as stated, fails: the files that [__exit__] writes have no member
    named [currentPersona], and they load as the registry that was saved, not
    as the empty one. *)
Lemma enter_without_currentPersona :
  has_field "currentPersona" (asdict (config two_personas)) = false /\
  __enter__ (JsonText (asdict (config two_personas)))
  = Typed (config two_personas) /\
  config two_personas <> empty_registry.
Proof. repeat split. discriminate. Qed.

(** C2 (amended). The object that [__exit__] writes has exactly two
    members, named [current_persona] and [personas], in that order, holding
    the current persona and one member per persona; [__enter__] reads a JSON
    value through the members of these two names only; and when every key of
    the mapping is the name of its record, each member of the written
    [personas] object is named by the [persona_name] nested in it. *)
Theorem persisted_field_names (c : Config) :
  (exists ps,
     __exit__ c =
       JsonText (JObject [ ("current_persona",
                            asdict_current (current_persona c));
                           ("personas", JObject ps) ]) /\
     dict_keys ps = dict_keys (personas c) /\
     (name_is_key c ->
      Forall (fun m => py_getitem (snd m) "persona_name"
                       = Return (JString (fst m))) ps))
  /\
  (forall j j',
     py_getitem j "current_persona" = py_getitem j' "current_persona" ->
     py_getitem j "personas" = py_getitem j' "personas" ->
     __enter__ (JsonText j) = __enter__ (JsonText j')).
Proof.
  split.
  - eexists. split; [reflexivity|]. split; [apply asdict_personas_keys|].
    unfold name_is_key. intros Hkeys.
    induction Hkeys as [|[k p] d Hk _ IH]; simpl; constructor.
    + simpl in *. subst k. now destruct p.
    + exact IH.
  - intros j j' Hcur Hps. unfold __enter__, load_config, json_load.
    now rewrite Hcur, Hps.
Qed.

Lemma persisted_field_names_witness :
  Forall (fun m => py_getitem (snd m) "persona_name"
                   = Return (JString (fst m)))
         [("work", asdict_Persona work); ("play", asdict_Persona play)] /\
  __enter__ (JsonText (JObject [ ("currentPersona", JString "play");
                                 ("current_persona", JString "work");
                                 ("personas", JObject []) ]))
  = __enter__ (JsonText (JObject [ ("current_persona", JString "work");
                                   ("personas", JObject []) ])).
Proof.
  destruct (persisted_field_names (config two_personas))
    as [(ps & Hexit & _ & Hnested) Hreads].
  injection Hexit as <-. split.
  - apply Hnested. repeat constructor.
  - apply Hreads; reflexivity.
Defined.

(** C2, as stated, fails: the written object has no member named
    [currentPersona], and a file that spells the member that way loads as the
    empty registry. *)
Lemma exit_writes_no_currentPersona :
  py_getitem (asdict (config two_personas)) "currentPersona"
  = Raise (KeyError "currentPersona") /\
  py_getitem (asdict (config two_personas)) "current_persona"
  = Return (JString "work") /\
  __enter__ (JsonText (JObject [ ("currentPersona", JString "work");
                                 ("personas", JObject []) ]))
  = Typed empty_registry.
Proof. repeat split. Qed.

(** ** Further properties of the methods *)

Section DictMore.
Context {V : Type}.
Implicit Types (d : dict V) (k : string) (v : V).

Lemma dict_set_set k v v' d : dict_set k v' (dict_set k v d) = dict_set k v' d.
Proof.
  induction d as [|[k0 v0] d IH]; simpl.
  - now rewrite String.eqb_refl.
  - destruct (String.eqb k k0) eqn:E; simpl; rewrite E; [reflexivity|].
    now rewrite IH.
Qed.

Lemma dict_del_set_fresh k v d :
  dict_get k d = None -> dict_del k (dict_set k v d) = Some d.
Proof.
  induction d as [|[k0 v0] d IH]; simpl.
  - now rewrite String.eqb_refl.
  - destruct (String.eqb k k0) eqn:E; [discriminate|].
    intros H. simpl. rewrite E. now rewrite (IH H).
Qed.

Lemma dict_set_length k v d :
  List.length (dict_set k v d) =
  if dict_contains k d then List.length d else S (List.length d).
Proof.
  unfold dict_contains. induction d as [|[k0 v0] d IH]; simpl; [reflexivity|].
  destruct (String.eqb k k0); simpl; [reflexivity|].
  rewrite IH. now destruct (dict_get k d).
Qed.

Lemma dict_del_length k d d' :
  dict_del k d = Some d' -> List.length d = S (List.length d').
Proof.
  revert d'. induction d as [|[k0 v0] d IH]; simpl; [discriminate|].
  intros d'. destruct (String.eqb k k0).
  - now intros [= <-].
  - destruct (dict_del k d) as [d''|]; [|discriminate].
    intros [= <-]. simpl. now rewrite (IH d'' eq_refl).
Qed.

Lemma dict_del_Some k d v :
  dict_get k d = Some v -> exists d', dict_del k d = Some d'.
Proof.
  intros H. destruct (dict_del k d) as [d'|] eqn:E; [now exists d'|].
  apply dict_del_None in E. congruence.
Qed.

End DictMore.

Lemma world_eta w :
  mkWorld (mkConfig (current_persona (config w)) (personas (config w)))
          (os_system w) = w.
Proof. now destruct w as [[cur d] log]. Qed.

(** X1. After [set_persona p], the name of [p] is a key, [get_persona] of
    that name gives [p], every other name gives what it gave before, and
    neither the current persona nor the commands run have changed. *)
Theorem set_persona_lookup (w : World) (p : Persona) :
  exists w',
    set_persona p w = (Return tt, w') /\
    fst (has_persona (persona_name p) w') = Return true /\
    (forall k,
       fst (get_persona k w') =
       if String.eqb k (persona_name p) then Return p
       else fst (get_persona k w)) /\
    current_persona (config w') = current_persona (config w) /\
    os_system w' = os_system w.
Proof.
  eexists. split; [reflexivity|]. run. unfold dict_contains.
  rewrite dict_get_set_same. repeat split.
  intros k. destruct (String.eqb_spec k (persona_name p)) as [->|Hne].
  - now rewrite dict_get_set_same.
  - rewrite dict_get_set_other by congruence.
    now destruct (dict_get k (personas (config w))).
Qed.

(** X2. Storing a persona and then another of the same name leaves the
    registry as storing the second alone does (the last write wins, at the
    place of the first); in particular storing the same persona twice is
    storing it once. *)
Theorem set_persona_last_wins (w : World) (p q : Persona) :
  persona_name p = persona_name q ->
  (set_persona p ;; set_persona q) w = set_persona q w.
Proof.
  intros Hname. run. rewrite Hname. now rewrite dict_set_set.
Qed.

Lemma set_persona_last_wins_witness :
  (set_persona work ;; set_persona work) two_personas
  = set_persona work two_personas /\
  (set_persona (mkPersona "play" "Ada L." "ada@work.example" "id_play") ;;
   set_persona play) fresh
  = set_persona play fresh.
Proof.
  split.
  - apply (set_persona_last_wins two_personas work work). reflexivity.
  - apply (set_persona_last_wins fresh). reflexivity.
Defined.

(** X3. Removing a persona that is in the mapping returns; afterwards its
    name is no key, every other name is looked up as before, the mapping has
    one entry less, and the current persona is what it was, also when it
    was the removed one. No command is run. *)
Theorem remove_persona_known (w : World) (name : string) (p : Persona) :
  dict_wf (personas (config w)) ->
  dict_get name (personas (config w)) = Some p ->
  exists w',
    remove_persona name w = (Return tt, w') /\
    (forall k,
       fst (get_persona k w') =
       if String.eqb k name then Raise (KeyError k)
       else fst (get_persona k w)) /\
    S (List.length (personas (config w'))) = List.length (personas (config w)) /\
    dict_wf (personas (config w')) /\
    current_persona (config w') = current_persona (config w) /\
    os_system w' = os_system w.
Proof.
  intros Hwf Hget.
  destruct (dict_del_Some _ _ _ Hget) as [d' Hdel].
  destruct (dict_wf_del _ _ _ Hwf Hdel) as [Hwf' Hgone].
  eexists. split.
  { run. rewrite Hdel. reflexivity. }
  run. repeat split.
  - intros k. destruct (String.eqb_spec k name) as [->|Hne].
    + now rewrite Hgone.
    + rewrite (dict_get_del_other name k _ _ (not_eq_sym Hne) Hdel).
      now destruct (dict_get k (personas (config w))).
  - symmetry. now apply (dict_del_length name).
  - exact Hwf'.
Qed.

Lemma remove_persona_known_witness :
  exists w',
    remove_persona "work" two_personas = (Return tt, w') /\
    (forall k,
       fst (get_persona k w') =
       if String.eqb k "work" then Raise (KeyError k)
       else fst (get_persona k two_personas)) /\
    S (List.length (personas (config w'))) = 2 /\
    dict_wf (personas (config w')) /\
    current_persona (config w') = Some "work" /\
    os_system w' = os_system two_personas.
Proof.
  apply (remove_persona_known two_personas "work" work).
  - repeat constructor; simpl; intuition discriminate.
  - reflexivity.
Defined.

(** X4. Storing a persona whose name is not yet a key and removing that name
    again gives back the state there was, entry order included. *)
Theorem set_then_remove (w : World) (p : Persona) :
  dict_contains (persona_name p) (personas (config w)) = false ->
  (set_persona p ;; remove_persona (persona_name p)) w = (Return tt, w).
Proof.
  intros Habsent. apply dict_contains_get in Habsent.
  run. rewrite (dict_del_set_fresh _ _ _ Habsent). simpl.
  now rewrite world_eta.
Qed.

Lemma set_then_remove_witness :
  (set_persona nameless ;; remove_persona EmptyString) two_personas
  = (Return tt, two_personas).
Proof.
  apply (set_then_remove two_personas nameless). reflexivity.
Defined.

(** X5. Renaming a name that is not a key raises [KeyError] of that name and
    changes nothing, whatever the new name. *)
Theorem rename_persona_unknown (w : World) (old_name new_name : string) :
  dict_contains old_name (personas (config w)) = false ->
  rename_persona old_name new_name w = (Raise (KeyError old_name), w).
Proof.
  intros Habsent. apply dict_contains_get in Habsent.
  run. now rewrite Habsent.
Qed.

Lemma rename_persona_unknown_witness :
  rename_persona "nobody" "work" two_personas
  = (Raise (KeyError "nobody"), two_personas).
Proof.
  apply rename_persona_unknown. reflexivity.
Defined.

(** X6. Renaming a persona of the mapping touches no name other than the old
    and the new one and runs no command; the mapping loses an entry exactly
    when the new name was already a key other than the old one, whose
    record is then overwritten, and keeps its size otherwise. *)
Theorem rename_persona_others (w : World) (a b : string) (p : Persona) :
  dict_wf (personas (config w)) ->
  dict_get a (personas (config w)) = Some p ->
  let w' := snd (rename_persona a b w) in
  (forall k,
     String.eqb k a = false -> String.eqb k b = false ->
     fst (get_persona k w') = fst (get_persona k w)) /\
  List.length (personas (config w')) =
    (if dict_contains b (personas (config w)) && negb (String.eqb a b)
     then pred (List.length (personas (config w)))
     else List.length (personas (config w))) /\
  dict_wf (personas (config w')) /\
  os_system w' = os_system w.
Proof.
  intros Hwf Hget.
  destruct (dict_del_Some _ _ _ Hget) as [d' Hdel].
  destruct (dict_wf_del _ _ _ Hwf Hdel) as [Hwf' Hgone].
  run. rewrite Hget. simpl. rewrite Hdel. simpl.
  split; [|split; [|split]].
  - intros k Hka Hkb.
    apply String.eqb_neq in Hka. apply String.eqb_neq in Hkb.
    rewrite dict_get_set_other by congruence.
    rewrite (dict_get_del_other a k _ _ (not_eq_sym Hka) Hdel).
    now destruct (dict_get k (personas (config w))).
  - rewrite dict_set_length, (dict_del_length _ _ _ Hdel).
    unfold dict_contains.
    destruct (String.eqb_spec a b) as [<-|Hne].
    + rewrite Hgone, andb_false_r. reflexivity.
    + rewrite (dict_get_del_other a b _ _ Hne Hdel), andb_true_r.
      now destruct (dict_get b (personas (config w))).
  - now apply dict_wf_set.
  - reflexivity.
Qed.

Lemma rename_persona_others_witness :
  let w' := snd (rename_persona "work" "play" two_personas) in
  (forall k,
     String.eqb k "work" = false -> String.eqb k "play" = false ->
     fst (get_persona k w') = fst (get_persona k two_personas)) /\
  List.length (personas (config w')) = 1 /\
  dict_wf (personas (config w')) /\
  os_system w' = os_system two_personas.
Proof.
  apply (rename_persona_others two_personas "work" "play" work).
  - repeat constructor; simpl; intuition discriminate.
  - reflexivity.
Defined.

(** X7. After [switch_persona] on a name of the mapping, whether it returned
    or was stopped by a refused command, the current persona is that name, the
    mapping is as before, and [get_current_persona] returns the persona
    stored under the name, unless the name is the empty string: then it
    returns [None]. *)
Theorem switch_then_get_current
  (w : World) (name : string) (_global : bool) (p : Persona) :
  dict_get name (personas (config w)) = Some p ->
  let w' := snd (switch_persona name _global w) in
  current_persona (config w') = Some name /\
  personas (config w') = personas (config w) /\
  get_current_persona w'
  = (Return (if String.eqb name EmptyString then None else Some p), w').
Proof.
  intros Hget. rewrite (switch_persona_run w name _global p Hget).
  cbn [snd]. split; [reflexivity|]. split; [reflexivity|].
  run. destruct (String.eqb name EmptyString); simpl; [reflexivity|].
  now rewrite Hget.
Qed.

Lemma switch_then_get_current_witness :
  get_current_persona (snd (switch_persona "play" false two_personas))
  = (Return (Some play), snd (switch_persona "play" false two_personas)) /\
  (let odd := mkPersona "odd" "ada" (String "000"%char EmptyString) "id" in
   let w := mkWorld (mkConfig None [("odd", odd)]) [] in
   fst (switch_persona "odd" false w)
   = Raise (ValueError "embedded null byte") /\
   fst (get_current_persona (snd (switch_persona "odd" false w)))
   = Return (Some odd)) /\
  fst (get_current_persona
         (snd (switch_persona EmptyString false
                 (mkWorld (mkConfig None [(EmptyString, nameless)]) []))))
  = Return None.
Proof.
  split; [|split; [split|]].
  - apply (switch_then_get_current two_personas "play" false play).
    reflexivity.
  - reflexivity.
  - set (odd := mkPersona "odd" "ada" (String "000"%char EmptyString) "id").
    set (w := mkWorld (mkConfig None [("odd", odd)]) []).
    destruct (switch_then_get_current w "odd" false odd eq_refl)
      as (_ & _ & Hcur).
    cbv zeta in Hcur. rewrite Hcur. reflexivity.
  - set (w := mkWorld (mkConfig None [(EmptyString, nameless)]) []).
    destruct (switch_then_get_current w EmptyString false nameless eq_refl)
      as (_ & _ & Hcur).
    cbv zeta in Hcur. rewrite Hcur. reflexivity.
Defined.

Section SortedUnique.
Context {A : Type} (key : A -> string).

Lemma key_NoDup_inj (l : list A) (x y : A) :
  NoDup (map key l) -> In x l -> In y l -> key x = key y -> x = y.
Proof.
  induction l as [|z l IH]; simpl; [tauto|].
  intros Hnd Hx Hy Hk. inversion Hnd as [|? ? Hz Hnd']; subst.
  destruct Hx as [->|Hx], Hy as [->|Hy]; auto.
  - exfalso. apply Hz. rewrite Hk. now apply in_map.
  - exfalso. apply Hz. rewrite <- Hk. now apply in_map.
Qed.

(** Two sorted arrangements of the same elements, with pairwise distinct
    keys, are the same list. *)
Lemma sorted_unique (l1 : list A) : forall l2,
  StronglySorted (key_le key) l1 -> StronglySorted (key_le key) l2 ->
  NoDup (map key l1) -> Permutation l1 l2 -> l1 = l2.
Proof.
  induction l1 as [|x l1 IH]; intros l2 Hs1 Hs2 Hnd Hp.
  - apply Permutation_nil in Hp. now subst.
  - destruct l2 as [|y l2].
    { apply Permutation_sym, Permutation_nil in Hp. discriminate. }
    inversion Hs1 as [|? ? Hs1' Hx]; subst.
    inversion Hs2 as [|? ? Hs2' Hy]; subst.
    assert (Hxy : x = y).
    { assert (Hin_y : In y (x :: l1)).
      { eapply Permutation_in; [apply Permutation_sym, Hp | now left]. }
      assert (Hin_x : In x (y :: l2)).
      { eapply Permutation_in; [apply Hp | now left]. }
      destruct Hin_y as [E|Hy1]; [exact E|].
      destruct Hin_x as [E|Hx2]; [now symmetry|].
      rewrite Forall_forall in Hx, Hy.
      apply (key_NoDup_inj (x :: l1)); auto; [now left | now right |].
      apply String.leb_antisym; [apply Hx, Hy1 | apply Hy, Hx2]. }
    subst y. f_equal. apply IH; auto.
    + now inversion Hnd.
    + now apply Permutation_cons_inv in Hp.
Qed.

End SortedUnique.

Lemma name_is_key_names (d : dict Persona) :
  Forall (fun kv => persona_name (snd kv) = fst kv) d ->
  map persona_name (dict_values d) = dict_keys d.
Proof.
  unfold dict_values, dict_keys. induction 1 as [|kv d Hkv _ IH]; simpl.
  - reflexivity.
  - now rewrite Hkv, IH.
Qed.

(** X8. The list that [list_personas] returns does not depend on the order
    in which the personas were stored: two registries with the same entries,
    keyed by name, list the same sequence. *)
Theorem list_personas_order_independent (w w' : World) :
  dict_wf (personas (config w)) ->
  name_is_key (config w) ->
  Permutation (personas (config w)) (personas (config w')) ->
  fst (list_personas w) = fst (list_personas w').
Proof.
  intros Hwf Hkeys Hperm. run. f_equal.
  apply (sorted_unique persona_name); try apply sorted_sorted.
  - eapply Permutation_NoDup; [|exact Hwf].
    rewrite <- (name_is_key_names _ Hkeys).
    apply Permutation_map, Permutation_sym, sorted_perm.
  - rewrite !sorted_perm. unfold dict_values. now apply Permutation_map.
Qed.

Lemma list_personas_order_independent_witness :
  fst (list_personas two_personas)
  = fst (list_personas
           (mkWorld (mkConfig None [("play", play); ("work", work)]) [])).
Proof.
  apply list_personas_order_independent.
  - repeat constructor; simpl; intuition discriminate.
  - repeat constructor.
  - apply perm_swap.
Defined.

(** ** Further properties of the persistence *)

(** X9. When [__enter__] reads a file and stores nothing but strings in the
    fields (the [Typed] outcome: not a file with a number, a list or the like
    where a string is declared), the registry read is read back unchanged
    from the file that [__exit__] writes for it: reading normalises once. *)
Theorem enter_exit_stable (f : file) (c : Config) :
  __enter__ f = Typed c -> __enter__ (__exit__ c) = Typed c.
Proof.
  intros Hf. destruct (enter_ok f c Hf) as [Hkeys Hwf].
  now apply enter_exit.
Qed.

Lemma enter_exit_stable_witness :
  __enter__ (__exit__ (mkConfig (Some "work") [("work", work)]))
  = Typed (mkConfig (Some "work") [("work", work)]).
Proof.
  apply (enter_exit_stable
           (JsonText
              (JObject [ ("personas",
                          JObject [ ("job", asdict_Persona work);
                                    ("office", asdict_Persona work) ]);
                         ("current_persona", JString "work") ]))).
  reflexivity.
Defined.

Lemma load_personas_by_name (ps : list Persona) : forall acc,
  load_personas (Some acc) (map asdict_Persona ps)
  = Return (Some (fold_left (fun d p => dict_set (persona_name p) p d) ps acc)).
Proof.
  induction ps as [|p ps IH]; intros acc; cbn [map load_personas fold_left].
  - reflexivity.
  - rewrite load_persona_asdict. apply IH.
Qed.

Lemma combine_keys_values {A B} (ks : list A) (vs : list B) :
  List.length ks = List.length vs ->
  map fst (combine ks vs) = ks /\ map snd (combine ks vs) = vs.
Proof.
  revert vs. induction ks as [|k ks IH]; intros [|v vs]; simpl;
    try discriminate; [now split|].
  intros [= Hlen]. destruct (IH vs Hlen) as [-> ->]. now split.
Qed.

(** X10. [__enter__] stores each record of the file under the
    [persona_name] written in the record, not under the name of the member
    that holds it: the registry read is the one obtained by storing the
    records in file order, a later record replacing an earlier one of the
    same name. *)
Theorem enter_keys_by_name
  (j : json) (cur : option string) (ks : list string) (ps : list Persona) :
  py_getitem j "current_persona" = Return (asdict_current cur) ->
  py_getitem j "personas"
    = Return (JObject (combine ks (map asdict_Persona ps))) ->
  NoDup ks ->
  List.length ks = List.length ps ->
  __enter__ (JsonText j) = Typed (mkConfig cur (personas_by_name ps)).
Proof.
  intros Hcur Hps Hnd Hlen.
  assert (Hlen' : List.length ks = List.length (map asdict_Persona ps))
    by now rewrite length_map.
  destruct (combine_keys_values ks _ Hlen') as [Hk Hv].
  unfold __enter__, load_config, json_load. rewrite Hcur, Hps.
  unfold py_values.
  rewrite dict_of_members_wf by (unfold dict_wf, dict_keys; now rewrite Hk).
  unfold dict_values. rewrite Hv.
  pose proof (load_personas_by_name ps []) as Hload.
  unfold dict in *. rewrite Hload.
  now destruct cur.
Qed.

Lemma enter_keys_by_name_witness :
  __enter__
    (JsonText
       (JObject [ ("current_persona", JString "job");
                  ("personas",
                   JObject [ ("job", asdict_Persona work);
                             ("fun", asdict_Persona play);
                             ("old", asdict_Persona
                                       (mkPersona "work" "A. L." "al@x" "id")) ])
                ]))
  = Typed (mkConfig (Some "job")
                    [ ("work", mkPersona "work" "A. L." "al@x" "id");
                      ("play", play) ]).
Proof.
  apply (enter_keys_by_name _ (Some "job") ["job"; "fun"; "old"]
           [work; play; mkPersona "work" "A. L." "al@x" "id"]).
  - reflexivity.
  - reflexivity.
  - repeat constructor; simpl; intuition discriminate.
  - reflexivity.
Defined.

Lemma forallb_false_In {A} (g : A -> bool) (l : list A) (x : A) :
  In x l -> g x = false -> forallb g l = false.
Proof.
  intros Hin Hx. destruct (forallb g l) eqn:E; [|reflexivity].
  rewrite forallb_forall in E. rewrite (E x Hin) in Hx. discriminate.
Qed.

Lemma Persona_kwargs_raises (v : json) (x : string) :
  (In x Persona_fields /\ has_field x v = false) \/
  (~ In x Persona_fields /\ has_field x v = true) ->
  exists e, Persona_kwargs v = Raise e.
Proof.
  unfold has_field, py_getitem, Persona_kwargs.
  destruct v as [| | | | |ms]; try (intros _; now eexists).
  set (d := dict_of_members ms).
  intros [[Hin Hx]|[Hout Hx]].
  - destruct (forallb _ (dict_keys d)); [|now eexists].
    simpl in Hin.
    destruct Hin as [<-|[<-|[<-|[<-|[]]]]];
      destruct (dict_get "persona_name" d), (dict_get "commit_name" d),
               (dict_get "email" d), (dict_get "ssh_key_path" d);
      try discriminate; now eexists.
  - rewrite (forallb_false_In _ _ x); [now eexists | |].
    + apply dict_get_In_keys. destruct (dict_get x d); congruence.
    + destruct (existsb (String.eqb x) Persona_fields) eqn:E; [|reflexivity].
      exfalso. apply Hout. apply existsb_exists in E.
      destruct E as (y & Hy & Exy). apply String.eqb_eq in Exy. now subst.
Qed.

Lemma load_personas_raises (v : json) (l : list json) :
  In v l -> (exists e, Persona_kwargs v = Raise e) ->
  forall acc, exists e, load_personas acc l = Raise e.
Proof.
  intros Hin [e He]. induction l as [|a l IH]; [destruct Hin|].
  intros acc. simpl.
  destruct (load_persona acc a) as [acc'|e'] eqn:Ea; [|now eexists].
  destruct Hin as [->|Hin]; [|now apply IH].
  unfold load_persona in Ea. rewrite He in Ea. discriminate.
Qed.

(** X11. One unusable record discards the whole file: when some value of the
    [personas] object lacks one of the four fields, has a member of another
    name, or is no object at all, [__enter__] gives the empty registry,
    whatever the other records and the current persona are. *)
Theorem enter_bad_record_resets (j ps v : json) (l : list json) (x : string) :
  py_getitem j "personas" = Return ps ->
  py_values ps = Return l ->
  In v l ->
  (In x Persona_fields /\ has_field x v = false) \/
  (~ In x Persona_fields /\ has_field x v = true) ->
  __enter__ (JsonText j) = Typed empty_registry.
Proof.
  intros Hps Hl Hin Hbad.
  destruct (load_personas_raises v l Hin (Persona_kwargs_raises v x Hbad)
              (Some [])) as [e He].
  unfold __enter__, load_config, json_load.
  destruct (py_getitem j "current_persona"); [|reflexivity].
  rewrite Hps, Hl. unfold dict in *. now rewrite He.
Qed.

Lemma enter_bad_record_resets_witness :
  __enter__
    (JsonText
       (JObject [ ("current_persona", JString "work");
                  ("personas",
                   JObject [ ("work", asdict_Persona work);
                             ("play",
                              JObject [ ("persona_name", JString "play");
                                        ("commit_name", JString "ada");
                                        ("ssh_key_path", JString "id_play") ])
                           ]) ]))
  = Typed empty_registry /\
  __enter__
    (JsonText
       (JObject [ ("current_persona", JString "work");
                  ("personas",
                   JObject [ ("work", asdict_Persona work);
                             ("play", JString "ada") ]) ]))
  = Typed empty_registry.
Proof.
  split.
  - eapply (enter_bad_record_resets _ _ _ _ "email").
    + reflexivity.
    + reflexivity.
    + right. left. reflexivity.
    + left. split; [simpl; tauto | reflexivity].
  - eapply (enter_bad_record_resets _ _ _ _ "email").
    + reflexivity.
    + reflexivity.
    + right. left. reflexivity.
    + left. split; [simpl; tauto | reflexivity].
Defined.

(** ** Properties of [main] *)

Ltac io :=
  unfold main_body, try_become, io_bind, io_ret, print, input, call; simpl.

Lemma main_typed (a : args) (lines : list string) (f : file) (c : Config) :
  __enter__ f = Typed c ->
  main a lines f
  = Some (run_of (main_body a (mkProcess (mkWorld c []) lines []))).
Proof.
  intros Hf. unfold main, run_of. rewrite Hf.
  now destruct (main_body a _).
Qed.

Lemma set_persona_keeps p : m_keeps (set_persona p).
Proof.
  intros w [Hkeys Hwf]. run. split.
  - now apply Forall_dict_set.
  - now apply dict_wf_set.
Qed.

Lemma remove_persona_keeps k : m_keeps (remove_persona k).
Proof.
  intros w [Hkeys Hwf]. run.
  destruct (dict_del k (personas (config w))) as [d'|] eqn:Hdel; simpl;
    [|now split].
  split.
  - eapply Forall_dict_del; eauto.
  - now destruct (dict_wf_del _ _ _ Hwf Hdel).
Qed.

Lemma rename_persona_keeps a b : m_keeps (rename_persona a b).
Proof.
  intros w [Hkeys Hwf]. run.
  destruct (dict_get a (personas (config w))) as [p|]; simpl; [|now split].
  destruct (dict_del a (personas (config w))) as [d'|] eqn:Hdel; simpl;
    [|now split].
  split.
  - apply Forall_dict_set; [|reflexivity]. eapply Forall_dict_del; eauto.
  - apply dict_wf_set. now destruct (dict_wf_del _ _ _ Hwf Hdel).
Qed.

Lemma switch_persona_keeps n g : m_keeps (switch_persona n g).
Proof.
  intros w Hw.
  destruct (dict_get n (personas (config w))) as [p|] eqn:Hget.
  - rewrite (switch_persona_run w n g p Hget). exact Hw.
  - run. unfold dict_contains. rewrite Hget. exact Hw.
Qed.

Lemma has_persona_keeps k : m_keeps (has_persona k).
Proof. intros w Hw. exact Hw. Qed.

Lemma list_personas_keeps : m_keeps list_personas.
Proof. intros w Hw. exact Hw. Qed.

Lemma get_current_persona_keeps : m_keeps get_current_persona.
Proof.
  intros w Hw. run.
  destruct (current_persona (config w)) as [n|]; simpl; [|exact Hw].
  destruct (String.eqb n EmptyString); simpl; [exact Hw|].
  now destruct (dict_get n (personas (config w))).
Qed.

Lemma io_bind_keeps {A B} (m : IO A) (k : A -> IO B) :
  io_keeps m -> (forall a, io_keeps (k a)) -> io_keeps (io_bind m k).
Proof.
  intros Hm Hk p Hp. unfold io_bind. specialize (Hm p Hp).
  destruct (m p) as [[a|e] p']; simpl in *; [now apply Hk | exact Hm].
Qed.

Lemma print_keeps s : io_keeps (print s).
Proof. intros p Hp. exact Hp. Qed.

Lemma input_keeps s : io_keeps (input s).
Proof. intros p Hp. unfold input. now destruct (stdin p). Qed.

Lemma call_keeps {A} (m : M A) : m_keeps m -> io_keeps (call m).
Proof.
  intros Hm p Hp. unfold call. specialize (Hm _ Hp).
  now destruct (m (manager p)) as [[a|e] w].
Qed.

Lemma print_personas_keeps l : io_keeps (print_personas l).
Proof.
  induction l as [|x l IH]; simpl; [now intros p Hp|].
  apply io_bind_keeps; [apply print_keeps | intros _; exact IH].
Qed.

Lemma try_become_keeps n g : io_keeps (try_become n g).
Proof.
  intros p Hp. unfold try_become.
  assert (Hin : io_keeps (call (switch_persona n g) ~;;
                          print ("Switched to persona " ++ n))).
  { apply io_bind_keeps; [apply call_keeps, switch_persona_keeps|].
    intros _. apply print_keeps. }
  specialize (Hin p Hp).
  destruct ((call (switch_persona n g) ~;;
             print ("Switched to persona " ++ n)) p)
    as [[[]|[|[]]] p']; simpl in *; exact Hin.
Qed.

Lemma main_body_keeps a : io_keeps (main_body a).
Proof.
  destruct a; unfold main_body;
    repeat first
      [ apply try_become_keeps
      | apply print_personas_keeps
      | apply print_keeps
      | apply input_keeps
      | apply call_keeps
      | apply set_persona_keeps
      | apply remove_persona_keeps
      | apply rename_persona_keeps
      | apply has_persona_keeps
      | apply list_personas_keeps
      | apply get_current_persona_keeps
      | apply io_bind_keeps
      | match goal with |- forall _, io_keeps _ => intros ? end
      | match goal with |- io_keeps (if ?b then _ else _) => destruct b end
      | match goal with |- io_keeps (match ?x with _ => _ end) =>
          destruct x end
      | progress cbv zeta ].
Qed.

Lemma enter_exit_ok (w : World) :
  registry_ok w -> __enter__ (__exit__ (config w)) = Typed (config w).
Proof. intros [Hkeys Hwf]. now apply enter_exit. Qed.

(** X12. For a file that [__enter__] reads with nothing but strings in the
    fields (the [Typed] outcome), whatever the subcommand and the input, and
    whether the run ends normally or by an uncaught exception, the run leaves
    a file that is the saved form of a registry which the next run reads back
    as it is; so the next run starts from a [Typed] registry too. *)
Theorem main_saves_loadable
  (a : args) (lines : list string) (f : file) (c : Config) :
  __enter__ f = Typed c ->
  exists r c',
    main a lines f = Some r /\
    saved r = __exit__ c' /\
    __enter__ (saved r) = Typed c' /\
    forall a' lines', main a' lines' (saved r) <> None.
Proof.
  intros Hf.
  pose proof (main_body_keeps a (mkProcess (mkWorld c []) lines [])
                (enter_ok f c Hf)) as Hok.
  rewrite (main_typed a lines f c Hf).
  destruct (main_body a _) as [st p]. unfold run_of. simpl in *.
  assert (He : __enter__ (__exit__ (config (manager p)))
               = Typed (config (manager p))) by exact (enter_exit_ok _ Hok).
  eexists. exists (config (manager p)).
  split; [reflexivity|]. simpl. split; [reflexivity|]. split; [exact He|].
  intros a' lines'. unfold main. rewrite He.
  now destruct (main_body a' _).
Qed.

Lemma main_saves_loadable_witness :
  exists r c',
    main subcommand_add ["work"] NotJson = Some r /\
    saved r = __exit__ c' /\
    __enter__ (saved r) = Typed c' /\
    forall a' lines', main a' lines' (saved r) <> None.
Proof.
  apply (main_saves_loadable subcommand_add ["work"] NotJson empty_registry).
  reflexivity.
Defined.

Lemma print_personas_run (l : list Persona) (p : Process) :
  print_personas l p
  = (Finished tt,
     mkProcess (manager p) (stdin p) (stdout p ++ map list_line l)).
Proof.
  revert p. induction l as [|x l IH]; intros p; simpl.
  - unfold io_ret. rewrite app_nil_r. now destruct p.
  - unfold io_bind, print. rewrite IH. simpl.
    now rewrite <- app_assoc.
Qed.

Lemma main_list_run (f : file) (c : Config) (lines : list string) :
  __enter__ f = Typed c ->
  main subcommand_list lines f
  = Some (mkRun (Finished tt)
                (map list_line (sorted persona_name (dict_values (personas c))))
                [] (__exit__ c)).
Proof.
  intros Hf. rewrite (main_typed _ _ _ _ Hf). unfold run_of, main_body.
  unfold io_bind, call. simpl. now rewrite print_personas_run.
Qed.

Lemma main_remove_run (f : file) (c : Config) (name : string) rest :
  __enter__ f = Typed c ->
  main subcommand_remove (name :: rest) f
  = Some (if dict_contains name (personas c)
          then mkRun (Finished tt)
                     [ Prompt "Persona name: ";
                       Line ("Removed persona '" ++ name ++ "'") ]
                     []
                     (__exit__ (config (snd (remove_persona name
                                               (mkWorld c [])))))
          else mkRun (Finished tt)
                     [ Prompt "Persona name: ";
                       Line ("Persona '" ++ name ++ "' not found") ]
                     [] (__exit__ c)).
Proof.
  intros Hf. rewrite (main_typed _ _ _ _ Hf). unfold run_of. io. run.
  unfold dict_contains.
  destruct (dict_get name (personas c)) as [p|] eqn:Hget; simpl;
    [|reflexivity].
  destruct (dict_del_Some _ _ _ Hget) as [d' Hdel]. now rewrite Hdel.
Qed.

Lemma main_become_run
  (f : file) (c : Config) (name : string) (_global : bool) lines :
  __enter__ f = Typed c ->
  main (subcommand_become name _global) lines f
  = Some match dict_get name (personas c) with
         | Some p =>
             mkRun (Finished tt)
                   [ Line (if nul_free p
                           then "Switched to persona " ++ name
                           else "Persona " ++ name ++ " not found") ]
                   (runnable (switch_commands _global p))
                   (__exit__ (mkConfig (Some name) (personas c)))
         | None =>
             mkRun (Finished tt)
                   [ Line ("Persona " ++ name ++ " not found") ]
                   [] (__exit__ c)
         end.
Proof.
  intros Hf. rewrite (main_typed _ _ _ _ Hf).
  unfold run_of, main_body, try_become, io_bind, call, print.
  cbn [manager stdin stdout].
  destruct (dict_get name (personas c)) as [p|] eqn:Hget.
  - rewrite (switch_persona_run (mkWorld c []) name _global p Hget).
    rewrite switch_commands_nul_free.
    destruct (nul_free p); reflexivity.
  - run. unfold dict_contains. rewrite Hget. reflexivity.
Qed.

Lemma main_none_run (f : file) (c : Config) (lines : list string) :
  __enter__ f = Typed c ->
  main subcommand_none lines f
  = Some (mkRun (fst (report_current c)) (snd (report_current c)) []
                (__exit__ c)).
Proof.
  intros Hf. destruct (enter_ok f c Hf) as [Hkeys _].
  rewrite (main_typed _ _ _ _ Hf). unfold run_of, report_current. io. run.
  destruct (current_persona c) as [n|]; simpl; [|reflexivity].
  destruct (String.eqb n EmptyString); simpl; [reflexivity|].
  unfold dict_contains.
  destruct (dict_get n (personas c)) as [p|] eqn:Hget; simpl;
    [|reflexivity].
  rewrite (name_is_key_get c n p Hkeys Hget), Hget. reflexivity.
Qed.

(** X13. The [add] subcommand reads four lines and stores the persona they
    spell under its name, replacing a persona of that name; with fewer than
    four lines it ends by [EOFError] after the prompt it could not answer
    and the registry is written back as it was read. It runs no command and
    leaves the current persona alone. *)
Theorem main_add (f : file) (c : Config) (lines : list string) :
  __enter__ f = Typed c ->
  main subcommand_add lines f
  = Some match lines with
         | n :: cn :: e :: k :: _ =>
             mkRun (Finished tt)
                   (Line "Adding a new persona ..." :: add_prompts
                      ++ [Line "Persona added"])
                   []
                   (__exit__ (mkConfig (current_persona c)
                                (dict_set n (mkPersona n cn e k)
                                          (personas c))))
         | _ =>
             mkRun (Uncaught EOFError)
                   (Line "Adding a new persona ..."
                      :: firstn (S (List.length lines)) add_prompts)
                   [] (__exit__ c)
         end.
Proof.
  intros Hf. rewrite (main_typed _ _ _ _ Hf).
  destruct lines as [|n [|cn [|e [|k rest]]]]; reflexivity.
Qed.

Lemma main_add_witness :
  main subcommand_add ["play"; "ada"] NoFile
  = Some (mkRun (Uncaught EOFError)
                [ Line "Adding a new persona ..."; Prompt "Persona name: ";
                  Prompt "Commit Author name: ";
                  Prompt "Commit Author Email address: " ]
                [] (__exit__ empty_registry)) /\
  main subcommand_add
       ["play"; "ada"; "ada@home.example"; "/home/ada/.ssh/id_play"]
       (__exit__ (mkConfig (Some "work") [("work", work)]))
  = Some (mkRun (Finished tt)
                (Line "Adding a new persona ..." :: add_prompts
                   ++ [Line "Persona added"])
                []
                (__exit__ (mkConfig (Some "work")
                                    [("work", work); ("play", play)]))).
Proof.
  split.
  - apply (main_add NoFile empty_registry ["play"; "ada"]). reflexivity.
  - apply (main_add _ (mkConfig (Some "work") [("work", work)])).
    reflexivity.
Defined.

(** X14. The [remove] subcommand never ends by an exception of the registry:
    for a name that is no key it prints that the persona was not found and
    writes the registry back as read; for a key it removes the entry. In both
    cases the current persona stays and no command is run. *)
Theorem main_remove (f : file) (c : Config) (name : string) rest :
  __enter__ f = Typed c ->
  main subcommand_remove (name :: rest) f
  = Some (if dict_contains name (personas c)
          then mkRun (Finished tt)
                     [ Prompt "Persona name: ";
                       Line ("Removed persona '" ++ name ++ "'") ]
                     []
                     (__exit__ (config (snd (remove_persona name
                                               (mkWorld c [])))))
          else mkRun (Finished tt)
                     [ Prompt "Persona name: ";
                       Line ("Persona '" ++ name ++ "' not found") ]
                     [] (__exit__ c)).
Proof. exact (main_remove_run f c name rest). Qed.

Lemma main_remove_witness :
  main subcommand_remove ["nobody"] (__exit__ (config two_personas))
  = Some (mkRun (Finished tt)
                [ Prompt "Persona name: ";
                  Line "Persona 'nobody' not found" ]
                [] (__exit__ (config two_personas))) /\
  main subcommand_remove ["work"] (__exit__ (config two_personas))
  = Some (mkRun (Finished tt)
                [ Prompt "Persona name: "; Line "Removed persona 'work'" ]
                [] (__exit__ (mkConfig (Some "work") [("play", play)]))).
Proof.
  split.
  - apply (main_remove _ (config two_personas) "nobody" []). reflexivity.
  - apply (main_remove _ (config two_personas) "work" []). reflexivity.
Defined.

(** X15. The [rename] subcommand takes the old and the new name from the
    standard input; the two names of the command line play no part. For an
    old name that is no key it prints that the persona was not found and
    changes nothing; for a key it renames as [rename_persona] does. It never
    ends by an exception of the registry. *)
Theorem main_rename
  (f : file) (c : Config) (x y old_name new_name : string) rest :
  __enter__ f = Typed c ->
  main (subcommand_rename x y) (old_name :: new_name :: rest) f
  = Some (if dict_contains old_name (personas c)
          then mkRun (Finished tt)
                     [ Prompt "Old persona name: ";
                       Prompt "New persona name: ";
                       Line ("Renamed persona '" ++ old_name ++ "' to '"
                               ++ new_name ++ "'") ]
                     []
                     (__exit__ (config (snd (rename_persona old_name new_name
                                               (mkWorld c [])))))
          else mkRun (Finished tt)
                     [ Prompt "Old persona name: ";
                       Prompt "New persona name: ";
                       Line ("Persona '" ++ old_name ++ "' not found") ]
                     [] (__exit__ c)).
Proof.
  intros Hf. rewrite (main_typed _ _ _ _ Hf). unfold run_of. io. run.
  unfold dict_contains.
  destruct (dict_get old_name (personas c)) as [p|] eqn:Hget; simpl;
    [|reflexivity].
  destruct (dict_del_Some _ _ _ Hget) as [d' Hdel].
  repeat (progress (rewrite ?Hget, ?Hdel; simpl)). reflexivity.
Qed.

Lemma main_rename_witness :
  main (subcommand_rename "play" "fun") ["work"; "job"]
       (__exit__ (config two_personas))
  = Some (mkRun (Finished tt)
                [ Prompt "Old persona name: "; Prompt "New persona name: ";
                  Line "Renamed persona 'work' to 'job'" ]
                []
                (__exit__ (mkConfig (Some "work")
                             [ ("play", play);
                               ("job", with_persona_name "job" work) ]))).
Proof.
  apply (main_rename _ (config two_personas) "play" "fun" "work" "job" []).
  reflexivity.
Defined.

(** X16. The [become] subcommand never ends by an exception. For a name that
    is no key the [ValueError] is caught, a message is printed, no command is
    run and the registry is written back as read. For a key the name is saved
    as the current persona in every case; when no field of the persona holds
    a NUL character the three [git config] commands are run and the switch
    is reported; otherwise only the commands before the first refused one are
    run and, the [ValueError] of [os.system] being caught like the other, the
    message says that the persona was not found. *)
Theorem main_become
  (f : file) (c : Config) (name : string) (_global : bool) lines :
  __enter__ f = Typed c ->
  main (subcommand_become name _global) lines f
  = Some match dict_get name (personas c) with
         | Some p =>
             mkRun (Finished tt)
                   [ Line (if nul_free p
                           then "Switched to persona " ++ name
                           else "Persona " ++ name ++ " not found") ]
                   (runnable (switch_commands _global p))
                   (__exit__ (mkConfig (Some name) (personas c)))
         | None =>
             mkRun (Finished tt)
                   [ Line ("Persona " ++ name ++ " not found") ]
                   [] (__exit__ c)
         end.
Proof. exact (main_become_run f c name _global lines). Qed.

Lemma main_become_witness :
  main (subcommand_become "play" true) [] (__exit__ (config two_personas))
  = Some (mkRun (Finished tt)
                [ Line "Switched to persona play" ]
                [ git_config true "user.name" "ada";
                  git_config true "user.email" "ada@home.example";
                  git_config true "core.sshCommand"
                             "ssh -i /home/ada/.ssh/id_play" ]
                (__exit__ (mkConfig (Some "play")
                                    [("work", work); ("play", play)]))) /\
  main (subcommand_become "nobody" false) [] NotJson
  = Some (mkRun (Finished tt) [ Line "Persona nobody not found" ] []
                (__exit__ empty_registry)) /\
  (let odd := mkPersona "odd" "ada" (String "000"%char EmptyString) "id" in
   main (subcommand_become "odd" false) []
        (__exit__ (mkConfig None [("odd", odd)]))
   = Some (mkRun (Finished tt) [ Line "Persona odd not found" ]
                 [ git_config false "user.name" "ada" ]
                 (__exit__ (mkConfig (Some "odd") [("odd", odd)])))).
Proof.
  split; [|split].
  - apply (main_become _ (config two_personas) "play" true []). reflexivity.
  - apply (main_become NotJson empty_registry "nobody" false []).
    reflexivity.
  - apply (main_become _
             (mkConfig None
                [("odd", mkPersona "odd" "ada"
                           (String "000"%char EmptyString) "id")])
             "odd" false []).
    reflexivity.
Defined.

(** X17. The program without a subcommand runs no command and writes the
    registry back as read. It prints that no persona is set when there is no
    current persona or it is the empty string, the current name when that
    name is a key, and otherwise prints nothing and ends by the [KeyError] of
    [get_current_persona]: the test [has_persona] of [main] never prints
    its message for a removed persona. *)
Theorem main_none (f : file) (c : Config) (lines : list string) :
  __enter__ f = Typed c ->
  main subcommand_none lines f
  = Some (mkRun (fst (report_current c)) (snd (report_current c)) []
                (__exit__ c)).
Proof. exact (main_none_run f c lines). Qed.

Lemma main_none_witness :
  main subcommand_none [] NoFile
  = Some (mkRun (Finished tt) [Line "No persona set"] []
                (__exit__ empty_registry)) /\
  main subcommand_none [] (__exit__ (config two_personas))
  = Some (mkRun (Finished tt) [Line "Currently using persona: work"] []
                (__exit__ (config two_personas))) /\
  main subcommand_none [] (__exit__ (config after_remove))
  = Some (mkRun (Uncaught (ManagerError (KeyError "work"))) [] []
                (__exit__ (config after_remove))).
Proof.
  split; [|split].
  - apply (main_none NoFile empty_registry []). reflexivity.
  - apply (main_none _ (config two_personas) []). reflexivity.
  - apply (main_none _ (config after_remove) []). reflexivity.
Defined.

Lemma dict_get_In_values {V} (k : string) (v : V) (d : dict V) :
  dict_get k d = Some v -> In v (dict_values d).
Proof.
  unfold dict_values. induction d as [|[k' v'] d IH]; simpl; [discriminate|].
  destruct (String.eqb k k'); [intros [= ->]; now left | auto].
Qed.

(** X18. Across two runs: after an [add] run that read four lines, a [list]
    run on the file it left prints one line per persona of the registry with
    the new persona stored, in ascending order of name, the line of the new
    persona among them, and leaves the file as it is. *)
Theorem add_then_list
  (f : file) (c : Config) (n cn e k : string) (rest lines' : list string) :
  __enter__ f = Typed c ->
  exists r r',
    main subcommand_add (n :: cn :: e :: k :: rest) f = Some r /\
    main subcommand_list lines' (saved r) = Some r' /\
    status r' = Finished tt /\
    printed r' =
      map list_line
          (sorted persona_name
                  (dict_values (dict_set n (mkPersona n cn e k)
                                         (personas c)))) /\
    In (list_line (mkPersona n cn e k)) (printed r') /\
    saved r' = saved r.
Proof.
  intros Hf.
  set (w1 := snd (set_persona (mkPersona n cn e k) (mkWorld c []))).
  assert (Hok : registry_ok w1).
  { apply set_persona_keeps. exact (enter_ok f c Hf). }
  eexists. eexists. split.
  { rewrite (main_typed _ _ _ _ Hf). reflexivity. }
  split.
  { apply (main_list_run _ (config w1)). exact (enter_exit_ok w1 Hok). }
  simpl. repeat split.
  apply in_map.
  eapply Permutation_in; [apply Permutation_sym, sorted_perm|].
  apply (dict_get_In_values n). apply dict_get_set_same.
Qed.

Lemma add_then_list_witness :
  exists r r',
    main subcommand_add ["play"; "ada"; "ada@home.example"; "id_play"]
         (__exit__ (mkConfig None [("work", work)])) = Some r /\
    main subcommand_list [] (saved r) = Some r' /\
    status r' = Finished tt /\
    printed r' = [ Line "play: ada <ada@home.example>";
                   Line "work: Ada Lovelace <ada@example.com>" ] /\
    In (Line "play: ada <ada@home.example>") (printed r') /\
    saved r' = saved r.
Proof.
  apply (add_then_list _ (mkConfig None [("work", work)])
           "play" "ada" "ada@home.example" "id_play" [] []).
  reflexivity.
Defined.

(** X19. Across two runs: after [become] with a name of the registry that is
    not the empty string, the program without a subcommand, run on the file
    left, prints that name as the persona in use. *)
Theorem become_then_none
  (f : file) (c : Config) (name : string) (_global : bool)
  (lines lines' : list string) :
  __enter__ f = Typed c ->
  dict_contains name (personas c) = true ->
  String.eqb name EmptyString = false ->
  exists r r',
    main (subcommand_become name _global) lines f = Some r /\
    main subcommand_none lines' (saved r) = Some r' /\
    status r' = Finished tt /\
    printed r' = [Line ("Currently using persona: " ++ name)] /\
    commands r' = [].
Proof.
  intros Hf Hin Hname.
  assert (Hok : registry_ok (mkWorld (mkConfig (Some name) (personas c)) []))
    by exact (enter_ok f c Hf).
  unfold dict_contains in Hin.
  destruct (dict_get name (personas c)) as [p|] eqn:Hget; [|discriminate].
  eexists. eexists. split.
  { rewrite (main_become_run _ _ _ _ _ Hf), Hget. reflexivity. }
  split.
  { apply main_none_run. exact (enter_exit_ok _ Hok). }
  unfold report_current, dict_contains. simpl.
  rewrite Hname, Hget. now repeat split.
Qed.

Lemma become_then_none_witness :
  exists r r',
    main (subcommand_become "play" false) []
         (__exit__ (config two_personas)) = Some r /\
    main subcommand_none [] (saved r) = Some r' /\
    status r' = Finished tt /\
    printed r' = [Line "Currently using persona: play"] /\
    commands r' = [].
Proof.
  apply (become_then_none _ (config two_personas) "play" false [] []);
    reflexivity.
Defined.

(** X20. Across three runs: [become] a persona of the registry whose name is
    not empty, [remove] that persona, then run the program without a
    subcommand. The [remove] run ends normally and keeps the name as current
    persona; the last run prints nothing and ends by [KeyError] of that name,
    and still writes the file back as it was. *)
Theorem remove_current_then_none
  (f : file) (c : Config) (name : string) (_global : bool)
  (l1 l2 l3 : list string) :
  __enter__ f = Typed c ->
  dict_contains name (personas c) = true ->
  String.eqb name EmptyString = false ->
  exists r1 r2 r3,
    main (subcommand_become name _global) l1 f = Some r1 /\
    main subcommand_remove (name :: l2) (saved r1) = Some r2 /\
    status r2 = Finished tt /\
    main subcommand_none l3 (saved r2) = Some r3 /\
    status r3 = Uncaught (ManagerError (KeyError name)) /\
    printed r3 = [] /\
    saved r3 = saved r2.
Proof.
  intros Hf Hin Hname.
  destruct (enter_ok f c Hf) as [Hkeys Hwf].
  set (w1 := mkWorld (mkConfig (Some name) (personas c)) []).
  assert (Hok1 : registry_ok w1) by now split.
  set (w2 := snd (remove_persona name w1)).
  assert (Hok2 : registry_ok w2) by now apply remove_persona_keeps.
  pose proof Hin as Hin'. unfold dict_contains in Hin'.
  destruct (dict_get name (personas c)) as [p|] eqn:Hget; [|discriminate].
  destruct (dict_del_Some _ _ _ Hget) as [d' Hdel].
  destruct (dict_wf_del _ _ _ Hwf Hdel) as [_ Hgone].
  assert (Hw2 : config w2 = mkConfig (Some name) d').
  { unfold w2, w1. run. now rewrite Hdel. }
  eexists. eexists. eexists. split.
  { rewrite (main_become_run _ _ _ _ _ Hf), Hget. reflexivity. }
  split.
  { pose proof (main_remove_run _ (config w1) name l2
                  (enter_exit_ok w1 Hok1)) as Hrun.
    simpl in Hrun. rewrite Hin in Hrun. exact Hrun. }
  split; [reflexivity|]. split.
  { simpl. apply (main_none_run _ (config w2)). exact (enter_exit_ok w2 Hok2). }
  fold w1 w2. rewrite Hw2. unfold report_current, dict_contains. simpl.
  rewrite Hname, Hgone. now repeat split.
Qed.

Lemma remove_current_then_none_witness :
  exists r1 r2 r3,
    main (subcommand_become "work" true) []
         (__exit__ (config two_personas)) = Some r1 /\
    main subcommand_remove ["work"] (saved r1) = Some r2 /\
    status r2 = Finished tt /\
    main subcommand_none [] (saved r2) = Some r3 /\
    status r3 = Uncaught (ManagerError (KeyError "work")) /\
    printed r3 = [] /\
    saved r3 = saved r2.
Proof.
  apply (remove_current_then_none _ (config two_personas) "work" true
           [] [] []); reflexivity.
Defined.
